(** * MVideoDK browser extension: the download relay

    A shallow embedding of the three scripts of the extension
    (popup.js, content_script.js, background.js) and the properties of
    the relay: configuration resolution, job submission, message routing,
    the popup's reset after a send and the floating-control flag. *)

From Stdlib Require Import ZArith String Ascii Bool List Lia.
From stdpp Require Import base option strings gmap pretty.

Local Open Scope string_scope.
Local Open Scope Z_scope.

(** ** JavaScript values

    The values that cross the extension's boundaries are JSON documents
    (config_ext.json, HTTP bodies, runtime messages, storage items), plus
    [undefined] for a property that is not there.  Numbers are kept as
    integers: the scripts only test them for truthiness and splice them
    into template literals.  An object is a finite map from property names
    to values. *)

#[warnings="-register-all"]
Inductive jsval : Type :=
  | JUndefined
  | JNull
  | JBool (b : bool)
  | JNum (n : Z)
  | JStr (s : string)
  | JArr (l : list jsval)
  | JObj (o : gmap string jsval).

Module JS.

(** ToBoolean: [if (v)], [!v], [a || b], [a && b]. *)
Definition truthy (v : jsval) : bool :=
  match v with
  | JUndefined | JNull => false
  | JBool b => b
  | JNum n => negb (n =? 0)
  | JStr EmptyString => false
  | JStr (String _ _) => true
  | JArr _ | JObj _ => true
  end.

(** [a || b] *)
Definition or (a b : jsval) : jsval := if truthy a then a else b.

(** [a && b], for an operand [b] whose evaluation has no effect. *)
Definition and (a b : jsval) : jsval := if truthy a then b else a.

(** [v === true] *)
Definition is_true (v : jsval) : bool :=
  match v with JBool true => true | _ => false end.

(** [v === "lit"] *)
Definition is_string (lit : string) (v : jsval) : bool :=
  match v with JStr s => String.eqb s lit | _ => false end.

(** [!!v] *)
Definition to_boolean (v : jsval) : jsval := JBool (truthy v).

(** [o[k]] on an object: a missing property reads as [undefined]. *)
Definition field (o : gmap string jsval) (k : string) : jsval :=
  default JUndefined (o !! k).

(** [v.k] for a value [v] known not to be [null] or [undefined] (the
    property names the scripts read are never built-in ones such as
    [length], so a primitive or an array answers [undefined]). *)
Definition prop (v : jsval) (k : string) : jsval :=
  match v with
  | JObj o => field o k
  | _ => JUndefined
  end.

(** [v?.k] *)
Definition opt_prop (v : jsval) (k : string) : jsval :=
  match v with
  | JUndefined | JNull => JUndefined
  | _ => prop v k
  end.

(** ToString, as a template literal [`${v}`] and [RegExp.prototype.test]
    apply it.  An array joins its elements with a comma, printing [null]
    and [undefined] elements as the empty string. *)
Fixpoint ToString (v : jsval) : string :=
  match v with
  | JUndefined => "undefined"
  | JNull => "null"
  | JBool true => "true"
  | JBool false => "false"
  | JNum n => pretty n
  | JStr s => s
  | JArr l =>
      (fix join (l : list jsval) : string :=
         match l with
         | [] => ""
         | x :: l' =>
             let sx := match x with
                       | JUndefined | JNull => ""
                       | _ => ToString x
                       end in
             match l' with
             | [] => sx
             | _ :: _ => sx ++ "," ++ join l'
             end
         end) l
  | JObj _ => "[object Object]"
  end.

(** [s.replace(/\/+$/, "")]: the run of slashes that ends the string is
    removed. *)
Fixpoint strip_trailing_slashes (s : string) : string :=
  match s with
  | EmptyString => EmptyString
  | String c s' =>
      match strip_trailing_slashes s' with
      | EmptyString => if Ascii.eqb c "/" then EmptyString else String c EmptyString
      | r => String c r
      end
  end.

(** [/^https?:\/\//.test(s)] *)
Definition test_http (s : string) : bool :=
  String.prefix "http://" s || String.prefix "https://" s.

(** [c.toUpperCase()] on one ASCII character; a byte outside [a-z] is
    kept (the modes the extension sends are ASCII). *)
Definition upper_ascii (c : ascii) : ascii :=
  let n := nat_of_ascii c in
  if (Nat.leb 97 n && Nat.leb n 122)%bool then ascii_of_nat (n - 32) else c.

Fixpoint upper (s : string) : string :=
  match s with
  | EmptyString => EmptyString
  | String c s' => String (upper_ascii c) (upper s')
  end.

(** White space removed by [String.prototype.trim], ASCII part. *)
Definition is_space (c : ascii) : bool :=
  let n := nat_of_ascii c in
  (Nat.eqb n 32 || (Nat.leb 9 n && Nat.leb n 13))%bool.

Fixpoint trim_start (s : string) : string :=
  match s with
  | EmptyString => EmptyString
  | String c s' => if is_space c then trim_start s' else s
  end.

Fixpoint trim_end (s : string) : string :=
  match s with
  | EmptyString => EmptyString
  | String c s' =>
      match trim_end s' with
      | EmptyString => if is_space c then EmptyString else String c EmptyString
      | r => String c r
      end
  end.

(** [s.trim()] *)
Definition trim (s : string) : string := trim_end (trim_start s).

End JS.

(** ** Computations of one execution context

    An [async] function is a computation over the state of its context
    that either returns or throws.  A thrown exception keeps the state
    reached so far, so that an assignment made before the throw is still
    visible after a [catch].  The handlers of one context are taken one at
    a time, each run to completion. *)

Inductive js_error : Type := TypeError | NetworkFailure | SyntaxError | ResourceError.

Inductive result (A : Type) : Type :=
  | Ok (a : A)
  | Throw (e : js_error).
Arguments Ok {A} a.
Arguments Throw {A} e.

Definition M (St A : Type) : Type := St -> result A * St.

Definition ret {St A} (a : A) : M St A := fun st => (Ok a, st).

Definition throw {St A} (e : js_error) : M St A := fun st => (Throw e, st).

Definition bind {St A B} (c : M St A) (k : A -> M St B) : M St B :=
  fun st =>
    match c st with
    | (Ok a, st') => k a st'
    | (Throw e, st') => (Throw e, st')
    end.

(** [try { c } catch (e) { h e }] *)
Definition try_catch {St A} (c : M St A) (h : js_error -> M St A) : M St A :=
  fun st =>
    match c st with
    | (Ok a, st') => (Ok a, st')
    | (Throw e, st') => h e st'
    end.

Definition gets {St A} (f : St -> A) : M St A := fun st => (Ok (f st), st).

Definition modify {St} (f : St -> St) : M St unit := fun st => (Ok tt, f st).

Definition lift_result {St A} (r : result A) : M St A := fun st => (r, st).

Notation "'let*' x ':=' c 'in' k" := (bind c (fun x => k))
  (at level 10, x pattern, c at level 100, k at level 200, only parsing).
Notation "c ';;' k" := (bind c (fun _ => k))
  (at level 100, k at level 200, right associativity, only parsing).

(** ** The outside world of the extension *)

Inductive http_method : Type := GET | POST.

Record request : Type := mkRequest {
  req_method : http_method;
  req_url : string;
  req_headers : list (string * string);
  (** the object handed to [JSON.stringify], when the request has a body *)
  req_body : option (gmap string jsval)
}.

Record response : Type := mkResponse {
  status : Z;
  statusText : string;
  (** what [res.json()] resolves to; [None] when it rejects *)
  json_body : option jsval
}.

(** [res.ok]: the status is in the range 200-299. *)
Definition resp_ok (r : response) : bool := (200 <=? status r) && (status r <=? 299).

Inductive fetch_result : Type :=
  | NetworkError
  | Response (r : response).

Record world : Type := mkWorld {
  (** config_ext.json as shipped in the package: the object it parses to,
      or [None] when the resource cannot be fetched or parsed *)
  bundled : option (gmap string jsval);
  (** the answer of the network to a request, given the requests the
      context has issued before *)
  net : list request -> request -> fetch_result;
  (** whether [chrome.notifications] is defined *)
  chrome_notifications : bool
}.

(** A JavaScript value that is a string, else a [TypeError] (calling a
    string method on another truthy value). *)
Definition as_string (v : jsval) : result string :=
  match v with
  | JStr s => Ok s
  | _ => Throw TypeError
  end.

(** [v.k] for any [v]: reading a property of [null] or [undefined]
    throws. *)
Definition get (v : jsval) (k : string) : result jsval :=
  match v with
  | JUndefined | JNull => Throw TypeError
  | _ => Ok (JS.prop v k)
  end.

(** The state of one execution context (the popup page or the background
    service worker): the module-level configuration cache ([CONFIG] in
    popup.js, [CFG] in background.js, both starting at [null]), the
    requests the context has sent over the network so far, and the state
    that is the context's own. *)
Record context (X : Type) : Type := mkContext {
  CFG : option (gmap string jsval);
  net_log : list request;
  own : X
}.
Arguments mkContext {X} _ _ _.
Arguments CFG {X} _.
Arguments net_log {X} _.
Arguments own {X} _.

Definition set_CFG {X} (c : option (gmap string jsval)) (st : context X) : context X :=
  mkContext c (net_log st) (own st).

Definition log_request {X} (rq : request) (st : context X) : context X :=
  mkContext (CFG st) (net_log st ++ [rq]) (own st).

Definition set_own {X} (f : X -> X) (st : context X) : context X :=
  mkContext (CFG st) (net_log st) (f (own st)).

(** [await fetch(url, init)] against the network: the request is sent,
    and the promise rejects on a transport failure. *)
Definition fetch {X} (w : world) (rq : request) : M (context X) response :=
  fun st =>
    match net w (net_log st) rq with
    | NetworkError => (Throw NetworkFailure, log_request rq st)
    | Response r => (Ok r, log_request rq st)
    end.

(** [await res.json()] *)
Definition res_json {X} (r : response) : M (context X) jsval :=
  match json_body r with
  | Some v => ret v
  | None => throw SyntaxError
  end.

(** [await (await fetch(chrome.runtime.getURL("config_ext.json"))).json()]:
    the read of the packaged resource, which does not go over the
    network. *)
Definition read_bundled {X} (w : world) : M (context X) (gmap string jsval) :=
  match bundled w with
  | Some c => ret c
  | None => throw ResourceError
  end.

(** [(v || "").replace(/\/+$/, "")] *)
Definition base_of (v : jsval) : result string :=
  match as_string (JS.or v (JStr "")) with
  | Ok s => Ok (JS.strip_trailing_slashes s)
  | Throw e => Throw e
  end.

(** The request for the configuration the server publishes:
    [fetch(`${base}/api/ext/config`, { method: "GET" })]. *)
Definition override_request (base : string) : request :=
  mkRequest GET (base ++ "/api/ext/config") [] None.

(** [CFG.k = v] on the cached configuration object. *)
Definition assign_CFG {X} (k : string) (v : jsval) : M (context X) unit :=
  modify (fun st =>
            match CFG st with
            | Some c => set_CFG (Some (<[k := v]> c)) st
            | None => st
            end).

(** [loadConfig], the same function in popup.js (over [CONFIG], lines
    60-82) and in background.js (over [CFG], lines 457-487); the two differ
    in the text they log and in the [{ method: "GET" }] that background.js
    spells out. *)
Definition loadConfig {X} (w : world) : M (context X) (gmap string jsval) :=
  let* cached := gets CFG in
  match cached with
  | Some c => ret c
  | None =>
      (* 1) the local JSON *)
      let* c := read_bundled w in
      modify (set_CFG (Some c)) ;;
      (* 2) the configuration the server publishes *)
      try_catch
        (let* base := lift_result (base_of (JS.field c "server_url")) in
         let* res := fetch w (override_request base) in
         if resp_ok res then
           let* srv := res_json res in
           let* server_url := lift_result (get srv "server_url") in
           (if JS.truthy server_url then assign_CFG "server_url" server_url else ret tt) ;;
           let* token := lift_result (get srv "token") in
           (if JS.truthy token then assign_CFG "token" token else ret tt)
         else ret tt)
        (fun _ => ret tt) ;;
      let* now := gets CFG in
      ret (default c now)
  end.

(** [testServer] of popup.js: the connectivity probe,
    [GET `${base}${apiPrefix}/ping`]; any failure reads as "not alive". *)
Definition testServer {X} (w : world) : M (context X) bool :=
  try_catch
    (let* cfg := loadConfig w in
     let* base := lift_result (base_of (JS.field cfg "server_url")) in
     let apiPrefix := JS.or (JS.field cfg "api_prefix") (JStr "/api") in
     let* resp := fetch w (mkRequest GET (base ++ JS.ToString apiPrefix ++ "/ping") [] None) in
     ret (resp_ok resp))
    (fun _ => ret false).

Module Background.

(** background.js keeps, besides the configuration cache, the
    notifications it has created: title and message. *)
Definition state : Type := context (list (string * jsval)).

Definition notifications (st : state) : list (string * jsval) := own st.

(** [notify(title, message)] *)
Definition notify (w : world) (title : string) (message : jsval) : M state unit :=
  if chrome_notifications w
  then modify (set_own (fun l => (l ++ [(title, message)])%list))
  else ret tt.

(** [getServerInfo] *)
Definition getServerInfo (w : world) : M state (string * jsval * jsval) :=
  let* cfg := loadConfig w in
  let* base := lift_result (base_of (JS.field cfg "server_url")) in
  let apiPrefix := JS.or (JS.field cfg "api_prefix") (JStr "/api") in
  let token := JS.or (JS.field cfg "token") (JStr "") in
  ret (base, apiPrefix, token).

(** The message shown for a response that is not [ok]:
    [(data && (data.detail || data.message)) || res.statusText || "Error HTTP"] *)
Definition error_message (data : jsval) (res : response) : jsval :=
  JS.or (JS.or (JS.and data (JS.or (JS.prop data "detail") (JS.prop data "message")))
               (JStr (statusText res)))
        (JStr "Error HTTP").

(** The object [{ url, source: "EXT", mode: modeUpper }] of the POST. *)
Definition queue_body (url : jsval) (modeUpper : string) : gmap string jsval :=
  <["url" := url]> (<["source" := JStr "EXT"]> (<["mode" := JStr modeUpper]> ∅)).

Definition queue_request (base : string) (apiPrefix token url : jsval) (modeUpper : string)
  : request :=
  mkRequest POST (base ++ JS.ToString apiPrefix ++ "/queue")
    [("Authorization", "Bearer " ++ JS.ToString token);
     ("Content-Type", "application/json")]
    (Some (queue_body url modeUpper)).

(** [sendDownload(url, modo = "video")]; it returns no value on any
    path. *)
Definition sendDownload (w : world) (url modo : jsval) : M state unit :=
  let modo := match modo with JUndefined => JStr "video" | _ => modo end in
  let* info := getServerInfo w in
  let '(base, apiPrefix, token) := info in
  if negb (JS.truthy (JStr base)) || negb (JS.truthy token) then
    notify w "Error" (JStr "Falta configuración de servidor o token.")
  else
    let* modeUpper :=
      lift_result (match as_string (JS.or modo (JStr "video")) with
                   | Ok s => Ok (JS.upper s)
                   | Throw e => Throw e
                   end) in
    try_catch
      (let* res := fetch w (queue_request base apiPrefix token url modeUpper) in
       let* data := try_catch (res_json res) (fun _ => ret JNull) in
       if negb (resp_ok res) then
         notify w "Error al enviar URL" (error_message data res)
       else
         notify w "MVideoDk" (JStr "Descarga en cola desde la extensión."))
      (fun _ =>
         notify w "Error de conexión"
           (JStr "No se pudo contactar con el servidor MVideoDk.")).

(** What the listener knows of the sender: [sender.tab], an object with
    the tab's [url] when the message comes from a page, [undefined] when
    it comes from the popup. *)
Record sender_info : Type := mkSender { sender_tab : jsval }.

(** What one run of the listener amounts to for the context that sent the
    message: the value passed to [sendResponse], if it is ever called, and
    whether the listener returned [true] to keep the channel open. *)
Record listener_result : Type := mkListenerResult {
  reply : option (gmap string jsval);
  keeps_channel_open : bool
}.

Definition reply_no_url : gmap string jsval :=
  <["ok" := JBool false]> (<["error" := JStr "no-url"]> ∅).

Definition reply_invalid_url : gmap string jsval :=
  <["ok" := JBool false]> (<["error" := JStr "URL inválida"]> ∅).

Definition reply_ok : gmap string jsval := <["ok" := JBool true]> ∅.

(** [msg.url || (sender.tab && sender.tab.url) || ""] *)
Definition finalUrl (msg : gmap string jsval) (sender : sender_info) : jsval :=
  JS.or (JS.or (JS.field msg "url")
               (JS.and (sender_tab sender) (JS.prop (sender_tab sender) "url")))
        (JStr "").

(** The asynchronous block the listener starts for a download,
    [await sendDownload(finalUrl, msg.modo || "video"); sendResponse({ ok: true })],
    run to its end; the listener itself has returned [true] by then.  If
    [sendDownload] rejects, [sendResponse] is never called. *)
Definition download_and_respond (w : world) (url modo : jsval) (st : state)
  : listener_result * state :=
  match sendDownload w url (JS.or modo (JStr "video")) st with
  | (Ok _, st') => (mkListenerResult (Some reply_ok) true, st')
  | (Throw _, st') => (mkListenerResult None true, st')
  end.

(** The [chrome.runtime.onMessage] listener of background.js
    ([sendResponse] is the function the runtime passes, so the guards
    [sendResponse && ...] always go through). *)
Definition onMessage (w : world) (msg : gmap string jsval) (sender : sender_info)
    (st : state) : listener_result * state :=
  if JS.is_string "DIRECT_DOWNLOAD" (JS.field msg "type") then
    let fromFloat := JS.is_true (JS.field msg "fromFloat") in
    let url := finalUrl msg sender in
    if negb (JS.truthy url) then
      (mkListenerResult (Some reply_no_url) false, st)
    else if negb fromFloat && negb (JS.test_http (JS.ToString url)) then
      (mkListenerResult (Some reply_invalid_url) false, st)
    else download_and_respond w url (JS.field msg "modo") st
  else (mkListenerResult None false, st).

End Background.

(** ** The shared storage, [chrome.storage.local] *)

Definition STORAGE_FLOAT : string := "MvideoDk_float_button".

Module Popup.

Record button_view : Type := mkButtonView {
  disabled : bool;
  textContent : string
}.

(** The part of the popup page the handlers read and write. *)
Record ui : Type := mkUi {
  urlInput_value : string;
  currentMode : string;
  modeSwitch_textContent : string;
  floatEnabled : bool;
  downloadBtn : button_view;
  downloadCurrentBtn : button_view;
  downloadPlaylistBtn : button_view;
  (** text and colour of the status label *)
  status_text : string;
  status_color : string
}.

(** [getFloatEnabled]: [items[STORAGE_FLOAT] === true] *)
Definition getFloatEnabled (storage : gmap string jsval) : bool :=
  JS.is_true (JS.field storage STORAGE_FLOAT).

(** [setFloatEnabled(enabled)]: stores [!!enabled] *)
Definition setFloatEnabled (enabled : jsval) (storage : gmap string jsval)
  : gmap string jsval :=
  <[STORAGE_FLOAT := JS.to_boolean enabled]> storage.

(** [showTempStatus(msg, ok)], as far as the label goes (the timer that
    restores the base status later is left out). *)
Definition showTempStatus (msg : string) (ok : bool) (u : ui) : ui :=
  mkUi (urlInput_value u) (currentMode u) (modeSwitch_textContent u) (floatEnabled u)
       (downloadBtn u) (downloadCurrentBtn u) (downloadPlaylistBtn u)
       msg (if ok then "green" else "red").

(** The click handler of [modeSwitch]. *)
Definition modeSwitch_click (u : ui) : ui :=
  let mode := if String.eqb (currentMode u) "video" then "playlist" else "video" in
  mkUi (urlInput_value u) mode
       (if String.eqb mode "video" then "Modo: Video" else "Modo: Playlist")
       (floatEnabled u)
       (downloadBtn u) (downloadCurrentBtn u) (downloadPlaylistBtn u)
       (status_text u) (status_color u).

(** [resetAfterSend] *)
Definition resetAfterSend (u : ui) : ui :=
  mkUi "" "video" "Modo: Video" (floatEnabled u)
       (downloadBtn u) (downloadCurrentBtn u) (downloadPlaylistBtn u)
       (status_text u) (status_color u).

Inductive send_button : Type := DownloadBtn | DownloadCurrentBtn | DownloadPlaylistBtn.

Definition set_button (b : send_button) (v : button_view) (u : ui) : ui :=
  mkUi (urlInput_value u) (currentMode u) (modeSwitch_textContent u) (floatEnabled u)
       (match b with DownloadBtn => v | _ => downloadBtn u end)
       (match b with DownloadCurrentBtn => v | _ => downloadCurrentBtn u end)
       (match b with DownloadPlaylistBtn => v | _ => downloadPlaylistBtn u end)
       (status_text u) (status_color u).

Definition direct_download (url modo : jsval) : gmap string jsval :=
  <["type" := JStr "DIRECT_DOWNLOAD"]> (<["url" := url]> (<["modo" := modo]> ∅)).

(** The URL the handlers of [downloadBtn] and [downloadPlaylistBtn] take:
    the trimmed text field, else [tab?.url || ""] of the active tab. *)
Definition input_or_tab_url (tab : jsval) (u : ui) : jsval :=
  let url := JStr (JS.trim (urlInput_value u)) in
  if negb (JS.truthy url) then JS.or (JS.opt_prop tab "url") (JStr "") else url.

(** The click handlers of the three send buttons, up to the call of
    [chrome.runtime.sendMessage]: the message sent, if any, and the page
    after the click.  [tab] is the first result of [chrome.tabs.query]. *)
Definition click (b : send_button) (tab : jsval) (u : ui)
  : option (gmap string jsval) * ui :=
  match b with
  | DownloadBtn =>
      let url := input_or_tab_url tab u in
      if negb (JS.truthy url) then
        (None, showTempStatus "❌ No se encontró una URL válida." false u)
      else
        (Some (direct_download url (JStr (currentMode u))),
         set_button b (mkButtonView true "Enviando...") u)
  | DownloadCurrentBtn =>
      let url := JS.or (JS.opt_prop tab "url") (JStr "") in
      if negb (JS.truthy url) then
        (None, showTempStatus "❌ No se encontró URL activa." false u)
      else
        (Some (direct_download url (JStr "video")),
         set_button b (mkButtonView true "Enviando...") u)
  | DownloadPlaylistBtn =>
      let url := input_or_tab_url tab u in
      if negb (JS.truthy url) then
        (None, showTempStatus "❌ No se encontró una URL válida." false u)
      else
        (Some (direct_download url (JStr "playlist")),
         set_button b (mkButtonView true "Enviando...") u)
  end.

(** The callback each handler hands to [sendMessage]; it takes no
    argument, so the response does not reach it. *)
Definition on_response (b : send_button) (u : ui) : ui :=
  match b with
  | DownloadBtn =>
      showTempStatus "Solicitud enviada. Revisa la app MVideoDk." true
        (resetAfterSend (set_button b (mkButtonView false "⬇ Descargar ahora") u))
  | DownloadCurrentBtn =>
      showTempStatus "Video en cola (si el servidor está activo)." true
        (resetAfterSend (set_button b (mkButtonView false "🎬 Descargar video actual") u))
  | DownloadPlaylistBtn =>
      showTempStatus "Playlist en cola (si el servidor está activo)." true
        (resetAfterSend (set_button b (mkButtonView false "🎵 Descargar playlist actual") u))
  end.

(** A message from the popup page has no [sender.tab]. *)
Definition sender : Background.sender_info := Background.mkSender JUndefined.

(** One click on a send button followed through: the message, if one is
    sent, is handled by the background listener, and the callback runs once
    the exchange is over (with the response or, when none comes, with
    [chrome.runtime.lastError] set). *)
Definition round_trip (w : world) (b : send_button) (tab : jsval) (u : ui)
    (bg : Background.state) : ui * Background.state :=
  match click b tab u with
  | (None, u') => (u', bg)
  | (Some msg, u') =>
      let '(_, bg') := Background.onMessage w msg sender bg in
      (on_response b u', bg')
  end.

(** The click handler of [toggleFloatBtn]: the flag is flipped and stored,
    and the new value is sent to the active tab. *)
Definition toggleFloat_click (u : ui) (storage : gmap string jsval)
  : ui * gmap string jsval * gmap string jsval :=
  let enabled := negb (floatEnabled u) in
  (mkUi (urlInput_value u) (currentMode u) (modeSwitch_textContent u) enabled
        (downloadBtn u) (downloadCurrentBtn u) (downloadPlaylistBtn u)
        (status_text u) (status_color u),
   setFloatEnabled (JBool enabled) storage,
   <["type" := JStr "SET_FLOAT_BUTTON"]> (<["enabled" := JBool enabled]> ∅)).

End Popup.

Module Content.

(** The overlay button, once created and appended to [document.body]. *)
Record button : Type := mkButton {
  textContent : string;
  display : string
}.

(** What the script sees of the document it is injected into. *)
Record document : Type := mkDocument {
  has_body : bool;
  location_href : string
}.

(** The variables of the content script's closure. *)
Record page : Type := mkPage {
  btn : option button;
  floatEnabled : bool;
  currentUrl : string
}.

(** The state the script starts in. *)
Definition start (doc : document) : page := mkPage None false (location_href doc).

(** [updateUrl], on a navigation event or the periodic poll. *)
Definition updateUrl (doc : document) (p : page) : page :=
  mkPage (btn p) (floatEnabled p) (location_href doc).

(** [updateVisibility] *)
Definition updateVisibility (p : page) : page :=
  match btn p with
  | None => p
  | Some b =>
      mkPage (Some (mkButton (textContent b) (if floatEnabled p then "block" else "none")))
             (floatEnabled p) (currentUrl p)
  end.

(** [createButton] *)
Definition createButton (doc : document) (p : page) : page :=
  if negb (has_body doc) || bool_decide (is_Some (btn p)) then p
  else updateVisibility (mkPage (Some (mkButton "⬇" "none")) (floatEnabled p) (currentUrl p)).

(** [removeButton] *)
Definition removeButton (p : page) : page := mkPage None (floatEnabled p) (currentUrl p).

(** The assignment to [floatEnabled] followed by [createButton] or
    [removeButton], as [initFloatState] and the message listener both do. *)
Definition set_enabled (doc : document) (enabled : bool) (p : page) : page :=
  let p' := mkPage (btn p) enabled (currentUrl p) in
  if enabled then createButton doc p' else removeButton p'.

(** [initFloatState], with the callback of [chrome.storage.local.get]. *)
Definition initFloatState (storage : gmap string jsval) (doc : document) (p : page) : page :=
  set_enabled doc (JS.is_true (JS.field storage STORAGE_FLOAT)) p.

(** [addOrInit] *)
Definition addOrInit (storage : gmap string jsval) (doc : document) (p : page) : page :=
  if negb (has_body doc) then p else initFloatState storage doc p.

(** The script from its injection until [addOrInit] has run, at once or on
    [DOMContentLoaded]. *)
Definition startup (storage : gmap string jsval) (doc : document) : page :=
  addOrInit storage doc (start doc).

(** The [chrome.runtime.onMessage] listener of the content script. *)
Definition onMessage (msg : gmap string jsval) (doc : document) (p : page) : page :=
  if JS.is_string "SET_FLOAT_BUTTON" (JS.field msg "type")
  then set_enabled doc (JS.truthy (JS.field msg "enabled")) p
  else p.

(** The message the click handler of the button sends. *)
Definition btn_click (p : page) : gmap string jsval :=
  <["type" := JStr "DIRECT_DOWNLOAD"]>
    (<["url" := JStr (currentUrl p)]>
       (<["modo" := JStr "video"]> (<["fromFloat" := JBool true]> ∅))).

(** The overlay control is on the page and shown. *)
Definition overlay_present (p : page) : bool :=
  match btn p with
  | Some b => String.eqb (display b) "block"
  | None => false
  end.

End Content.

(** ** The words of the specification, next to the code *)

(** "Overwrites the fields present and non-empty in the response": the
    field [k] of the response, when it is there and not empty, replaces
    the bundled one. *)
Definition overwrite (k : string) (srv c : gmap string jsval) : gmap string jsval :=
  if JS.truthy (JS.field srv k) then <[k := JS.field srv k]> c else c.

(** "A failed or malformed override response": a network error, a status
    outside 200-299, or a body that is no JSON object. *)
Definition failed_override (fr : fetch_result) : bool :=
  match fr with
  | NetworkError => true
  | Response r =>
      negb (resp_ok r) ||
      match json_body r with
      | Some (JObj _) => false
      | _ => true
      end
  end.

(** The override of one resolution fails: its URL cannot be built (the
    bundled [server_url] is no string), or the answer is a failed one. *)
Definition override_fails {X} (w : world) (st : context X) (c : gmap string jsval) : bool :=
  match base_of (JS.field c "server_url") with
  | Ok base => failed_override (net w (net_log st) (override_request base))
  | Throw _ => true
  end.

(** "GET {server_url}{api_prefix}/ext/config": the URL the specification
    gives the override request, over the base URL and the prefix that
    [getServerInfo] uses for the queue. *)
Definition spec_override_url (c : gmap string jsval) (base : string) : string :=
  base ++ JS.ToString (JS.or (JS.field c "api_prefix") (JStr "/api")) ++ "/ext/config".

(** "serverBaseUrl has no trailing slash": the last character of [s] is
    a slash. *)
Fixpoint ends_with_slash (s : string) : bool :=
  match s with
  | EmptyString => false
  | String ch EmptyString => Ascii.eqb ch "/"
  | String _ s' => ends_with_slash s'
  end.

(** The requests a call of [loadConfig] sends: none when the
    configuration is cached or the bundled resource cannot be read,
    else the override request when its URL can be built. *)
Definition config_requests {X} (w : world) (st : context X) : list request :=
  match CFG st, bundled w with
  | None, Some c =>
      match base_of (JS.field c "server_url") with
      | Ok base => [override_request base]
      | Throw _ => []
      end
  | _, _ => []
  end.

(** "The display error is drawn from the body's detail or message field
    when present, else the status text", with the last resort the code
    adds for a response without a status text. *)
Definition display_error (r : response) : jsval :=
  let data := default JNull (json_body r) in
  if JS.truthy data && JS.truthy (JS.prop data "detail") then JS.prop data "detail"
  else if JS.truthy data && JS.truthy (JS.prop data "message") then JS.prop data "message"
  else if negb (String.eqb (statusText r) "") then JStr (statusText r)
  else JStr "Error HTTP".

(** The outcome of a submission that reached the network, as the
    notification that reports it: "Unreachable" on a transport failure,
    success on a 2xx status, else "Rejected" with the display error. *)
Definition notice_of (fr : fetch_result) : string * jsval :=
  match fr with
  | NetworkError =>
      ("Error de conexión", JStr "No se pudo contactar con el servidor MVideoDk.")
  | Response r =>
      if resp_ok r then ("MVideoDk", JStr "Descarga en cola desde la extensión.")
      else ("Error al enviar URL", display_error r)
  end.

(** The notification of a submission that was not attempted:
    "Misconfigured". *)
Definition misconfigured_notice : string * jsval :=
  ("Error", JStr "Falta configuración de servidor o token.").

(** What a call of [notify] adds to the notifications shown. *)
Definition shown (w : world) (n : string * jsval) : list (string * jsval) :=
  if chrome_notifications w then [n] else [].

(** The outcome of [sendDownload] for the server data [base], [token]:
    "Misconfigured" when one of them is empty, else the outcome of the
    POST [rq] after the requests [log]. *)
Definition outcome_notice (w : world) (base : string) (token : jsval)
    (log : list request) (rq : request) : string * jsval :=
  if negb (JS.truthy (JStr base)) || negb (JS.truthy token) then misconfigured_notice
  else notice_of (net w log rq).

(** The two modes of a submission intent. *)
Inductive mode : Type := Video | Playlist.

Definition mode_name (m : mode) : string :=
  match m with Video => "video" | Playlist => "playlist" end.

Definition mode_upper (m : mode) : string :=
  match m with Video => "VIDEO" | Playlist => "PLAYLIST" end.

(** The reply the specification gives for a submission the server
    rejects with [{"detail":"bad token"}]. *)
Definition spec_rejected_reply : gmap string jsval :=
  <["ok" := JBool false]>
    (<["errorKind" := JStr "Rejected"]> (<["detail" := JStr "bad token"]> ∅)).

(** ** Scenarios: concrete packages, servers and messages *)

Module Scenario.

(** A package whose config_ext.json points at the local server. *)
Definition config (prefix token : string) : gmap string jsval :=
  <["server_url" := JStr "http://127.0.0.1:8000/"]>
    (<["api_prefix" := JStr prefix]> (<["token" := JStr token]> ∅)).

(** A server that answers every request alike. *)
Definition always (r : response) : list request -> request -> fetch_result :=
  fun _ _ => Response r.

(** No server at all. *)
Definition offline : list request -> request -> fetch_result :=
  fun _ _ => NetworkError.

(** A context that has just started. *)
Definition fresh {X} (x : X) : context X := mkContext None [] x.

(** The override endpoint publishes a new address and token. *)
Definition override_body : gmap string jsval :=
  <["server_url" := JStr "https://x.test"]> (<["token" := JStr "abc"]> ∅).

Definition w_override : world :=
  mkWorld (Some (config "/api" "local")) (always (mkResponse 200 "OK" (Some (JObj override_body)))) true.

(** The server answers 500 with a page that is no JSON. *)
Definition w_broken : world :=
  mkWorld (Some (config "/api" "local"))
          (always (mkResponse 500 "Internal Server Error" None)) true.

(** The same over HTTP/2, where a response has no status text. *)
Definition h2_error : response := mkResponse 500 "" None.

Definition w_broken_h2 : world :=
  mkWorld (Some (config "/api" "local")) (always h2_error) true.

(** The server rejects the token. *)
Definition bad_token_body : gmap string jsval := <["detail" := JStr "bad token"]> ∅.

Definition w_bad_token : world :=
  mkWorld (Some (config "/api" "local"))
          (always (mkResponse 403 "Forbidden" (Some (JObj bad_token_body)))) true.

(** The package ships without a token, and the server is down. *)
Definition w_no_token : world := mkWorld (Some (config "/api" "")) offline true.

(** The package is configured with the prefix [/v2]. *)
Definition w_prefix_v2 : world := mkWorld (Some (config "/v2" "local")) offline true.

(** The server accepts everything. *)
Definition w_accepting : world :=
  mkWorld (Some (config "/api" "local")) (always (mkResponse 200 "OK" (Some (JObj ∅)))) true.

(** A popup whose text field holds [text], in mode [m]. *)
Definition popup_ui (text m : string) : Popup.ui :=
  Popup.mkUi text m (if String.eqb m "video" then "Modo: Video" else "Modo: Playlist") false
    (Popup.mkButtonView false "⬇ Descargar ahora")
    (Popup.mkButtonView false "🎬 Descargar video actual")
    (Popup.mkButtonView false "🎵 Descargar playlist actual")
    "" "green".

(** The active tab, showing [url]. *)
Definition tab (url : string) : jsval := JObj (<["url" := JStr url]> ∅).

(** A web page with a body. *)
Definition web_page : Content.document := Content.mkDocument true "https://video.test/watch?v=1".

(** An SVG image opened in a tab: a document without a body. *)
Definition svg_page : Content.document := Content.mkDocument false "https://video.test/logo.svg".

End Scenario.

(** ** More of popup.js: the status line

    [baseStatusText], [baseStatusColor] and [tempStatusTimer] of
    popup.js, with the status label and the timeouts of the page.
    [setTimeout] hands out identifiers in increasing order; a timeout is
    pending from [setTimeout] until it fires or is cleared. *)

Module StatusLine.

Record state : Type := mkState {
  (** text and colour of the element with id "status", when the page has
      one *)
  label : option (string * string);
  baseStatusText : string;
  baseStatusColor : string;
  tempStatusTimer : option positive;
  pending : gset positive;
  next_timer : positive
}.

(** The variables as the script declares them. *)
Definition initial (label0 : option (string * string)) : state :=
  mkState label0 "" "green" None ∅ 1%positive.

Definition color (ok : bool) : string := if ok then "green" else "red".

(** [applyStatus(text, color)] *)
Definition applyStatus (text col : string) (s : state) : state :=
  match label s with
  | None => s
  | Some _ =>
      mkState (Some (text, col)) (baseStatusText s) (baseStatusColor s)
              (tempStatusTimer s) (pending s) (next_timer s)
  end.

(** [setBaseStatus(text, ok)] *)
Definition setBaseStatus (text : string) (ok : bool) (s : state) : state :=
  applyStatus text (color ok)
    (mkState (label s) text (color ok) (tempStatusTimer s) (pending s) (next_timer s)).

(** [clearTimeout(id)] *)
Definition clearTimeout (id : positive) (s : state) : state :=
  mkState (label s) (baseStatusText s) (baseStatusColor s) (tempStatusTimer s)
          (pending s ∖ {[id]}) (next_timer s).

(** [showTempStatus(msg, ok)]: an earlier timeout is cleared, the message
    is shown, and a new timeout is set to bring the base status back. *)
Definition showTempStatus (msg : string) (ok : bool) (s : state) : state :=
  let s1 :=
    match tempStatusTimer s with
    | Some id =>
        let s' := clearTimeout id s in
        mkState (label s') (baseStatusText s') (baseStatusColor s') None
                (pending s') (next_timer s')
    | None => s
    end in
  let s2 := applyStatus msg (color ok) s1 in
  mkState (label s2) (baseStatusText s2) (baseStatusColor s2)
          (Some (next_timer s2)) ({[next_timer s2]} ∪ pending s2)
          (Pos.succ (next_timer s2)).

(** The timeout [id] comes due: if it is still pending, its callback
    shows the base status as it is then. *)
Definition timer_fires (id : positive) (s : state) : state :=
  if decide (id ∈ pending s)
  then applyStatus (baseStatusText s) (baseStatusColor s) (clearTimeout id s)
  else s.

(** What can happen to the status line: the calls of the two functions
    from anywhere in popup.js, and a timeout coming due. *)
Inductive event : Type :=
  | SetBase (text : string) (ok : bool)
  | ShowTemp (msg : string) (ok : bool)
  | Fires (id : positive).

Definition step (s : state) (e : event) : state :=
  match e with
  | SetBase text ok => setBaseStatus text ok s
  | ShowTemp msg ok => showTempStatus msg ok s
  | Fires id => timer_fires id s
  end.

Definition run (es : list event) (s : state) : state := fold_left step es s.

(** At most one timeout is pending, the one [tempStatusTimer] names,
    and the identifiers in use have been handed out. *)
Definition tidy (s : state) : Prop :=
  (forall id, id ∈ pending s -> tempStatusTimer s = Some id) /\
  (forall id, id ∈ pending s -> (id < next_timer s)%positive).

End StatusLine.

(** ** More of popup.js: the page around the send buttons *)

Module PopupPage.

(** The part of the popup page that the handlers below read and write. *)
Record page : Type := mkPage {
  line : StatusLine.state;
  serverUrlInput_value : string;
  (** [serverUrlInput.classList] contains "secret-hidden" *)
  secret_hidden : bool;
  urlHidden : bool;
  toggleServerUrlBtn_textContent : string;
  (** text and background colour of [toggleFloatBtn], when the page has
      the button *)
  toggleFloatBtn : option (string * string);
  (** the URLs handed to [chrome.tabs.create] *)
  tabs_created : list string;
  (** the text last written to the clipboard *)
  clipboard : option string
}.

Definition on_line (f : StatusLine.state -> StatusLine.state) (p : page) : page :=
  mkPage (f (line p)) (serverUrlInput_value p) (secret_hidden p) (urlHidden p)
         (toggleServerUrlBtn_textContent p) (toggleFloatBtn p) (tabs_created p)
         (clipboard p).


Definition set_hidden (hidden secret : bool) (text : string) (p : page) : page :=
  mkPage (line p) (serverUrlInput_value p) secret hidden text
         (toggleFloatBtn p) (tabs_created p) (clipboard p).

Definition create_tab (url : string) (p : page) : page :=
  mkPage (line p) (serverUrlInput_value p) (secret_hidden p) (urlHidden p)
         (toggleServerUrlBtn_textContent p) (toggleFloatBtn p)
         (tabs_created p ++ [url])%list (clipboard p).

Definition write_clipboard (text : string) (p : page) : page :=
  mkPage (line p) (serverUrlInput_value p) (secret_hidden p) (urlHidden p)
         (toggleServerUrlBtn_textContent p) (toggleFloatBtn p) (tabs_created p)
         (Some text).


(** The click handler of [toggleServerUrlBtn]. *)
Definition toggleServerUrlBtn_click (p : page) : page :=
  let hidden := negb (urlHidden p) in
  if hidden then set_hidden hidden true "👁️" p
  else set_hidden hidden false "🙈" p.

(** The click handler of [copyServerUrlBtn]; [writable] tells whether
    [navigator.clipboard.writeText] resolves. *)
Definition copyServerUrlBtn_click (writable : bool) (p : page) : page :=
  if writable then
    on_line (StatusLine.showTempStatus "✅ URL del servidor copiada." true)
      (write_clipboard (serverUrlInput_value p) p)
  else
    on_line (StatusLine.showTempStatus "⚠️ No se pudo copiar la URL." false) p.

(** The click handler of [viewQueueBtn]. *)
Definition viewQueueBtn_click (w : world) : M (context page) unit :=
  try_catch
    (let* cfg := loadConfig w in
     let* base := lift_result (base_of (JS.field cfg "server_url")) in
     modify (set_own (create_tab (base ++ "/ext/queue"))))
    (fun _ =>
       modify (set_own (on_line
         (StatusLine.showTempStatus "❌ No se pudo leer config_ext.json" false)))).

(** The click handler of [openDownloadsBtn]. *)
Definition openDownloadsBtn_click (w : world) : M (context page) unit :=
  try_catch
    (let* cfg := loadConfig w in
     let* base := lift_result (base_of (JS.field cfg "server_url")) in
     modify (set_own (create_tab (base ++ "/ext/open_downloads"))))
    (fun _ =>
       modify (set_own (on_line
         (StatusLine.showTempStatus "❌ No se pudo leer config_ext.json" false)))).




End PopupPage.

(** ** More of popup.js: the send buttons over time *)

Module PopupSession.

(** The [DOMContentLoaded] handler's writes to the part of the page in
    [Popup.ui]: the mode starts at "video", and the flag of the floating
    control is read from storage. *)
Definition open_view (storage : gmap string jsval) (u : Popup.ui) : Popup.ui :=
  Popup.mkUi (Popup.urlInput_value u) "video" "Modo: Video"
             (Popup.getFloatEnabled storage)
             (Popup.downloadBtn u) (Popup.downloadCurrentBtn u)
             (Popup.downloadPlaylistBtn u)
             (Popup.status_text u) (Popup.status_color u).

(** What the user and the runtime do to an open popup. *)
Inductive event : Type :=
  | Types (text : string)
  | SwitchesMode
  | Clicks (b : Popup.send_button) (tab : jsval)
  | Answered (b : Popup.send_button)
  | TogglesFloat.

Definition type_url (text : string) (u : Popup.ui) : Popup.ui :=
  Popup.mkUi text (Popup.currentMode u) (Popup.modeSwitch_textContent u)
             (Popup.floatEnabled u)
             (Popup.downloadBtn u) (Popup.downloadCurrentBtn u)
             (Popup.downloadPlaylistBtn u)
             (Popup.status_text u) (Popup.status_color u).

Definition step (u : Popup.ui) (e : event) : Popup.ui :=
  match e with
  | Types text => type_url text u
  | SwitchesMode => Popup.modeSwitch_click u
  | Clicks b tab => snd (Popup.click b tab u)
  | Answered b => Popup.on_response b u
  | TogglesFloat => fst (fst (Popup.toggleFloat_click u ∅))
  end.

Definition run (es : list event) (u : Popup.ui) : Popup.ui := fold_left step es u.

(** The mode is one of the two, and the switch names it. *)
Definition mode_shown (u : Popup.ui) : Prop :=
  Popup.currentMode u = "video" /\ Popup.modeSwitch_textContent u = "Modo: Video" \/
  Popup.currentMode u = "playlist" /\ Popup.modeSwitch_textContent u = "Modo: Playlist".

End PopupSession.

(** ** More of content_script.js: the feedback of a click, and the page
    over time *)

Module ContentSession.

(** [btn.textContent = t], where [btn] is the variable of the closure:
    a [TypeError] once [removeButton] has set it to [null]. *)
Definition set_textContent (t : string) (p : Content.page) : result Content.page :=
  match Content.btn p with
  | Some b =>
      Ok (Content.mkPage (Some (Content.mkButton t (Content.display b)))
                         (Content.floatEnabled p) (Content.currentUrl p))
  | None => Throw TypeError
  end.

(** The callback the click handler hands to [sendMessage]:
    [lastError] tells whether [chrome.runtime.lastError] is set, [res] is
    the response.  When it returns, a timeout is set that runs
    [feedback_timer]. *)
Definition on_click_response (lastError : bool) (res : jsval) (p : Content.page)
  : result Content.page :=
  if lastError then set_textContent "✕" p
  else set_textContent
         (if JS.truthy (JS.and res (JS.prop res "ok")) then "✓" else "✕") p.

(** The callback of that timeout: [btn.textContent = "⬇"]. *)
Definition feedback_timer (p : Content.page) : result Content.page :=
  set_textContent "⬇" p.

(** What happens to a running content script. *)
Inductive event : Type :=
  | Navigates (href : string)
  | Receives (msg : gmap string jsval)
  | Responded (lastError : bool) (res : jsval)
  | FeedbackDue.

(** One event on the page of document [doc]; a callback that throws
    leaves the variables as they were. *)
Definition step (doc : Content.document) (p : Content.page) (e : event) : Content.page :=
  match e with
  | Navigates href => Content.updateUrl (Content.mkDocument (Content.has_body doc) href) p
  | Receives msg => Content.onMessage msg doc p
  | Responded lastError res =>
      match on_click_response lastError res p with Ok p' => p' | Throw _ => p end
  | FeedbackDue =>
      match feedback_timer p with Ok p' => p' | Throw _ => p end
  end.

Definition run (doc : Content.document) (es : list event) (p : Content.page) : Content.page :=
  fold_left (step doc) es p.

(** The button is in the page exactly when the document has a body and
    the flag is on, and a button in the page is displayed. *)
Definition control_follows_flag (doc : Content.document) (p : Content.page) : Prop :=
  match Content.btn p with
  | Some b => Content.display b = "block" /\ Content.has_body doc && Content.floatEnabled p = true
  | None => Content.has_body doc && Content.floatEnabled p = false
  end.

End ContentSession.

(** ** JavaScript values: basic facts *)

Lemma truthy_field_lookup (o : gmap string jsval) (k : string) :
  JS.truthy (JS.field o k) = true -> o !! k = Some (JS.field o k).
Proof.
  unfold JS.field. destruct (o !! k) as [v|]; [reflexivity|discriminate].
Qed.

Lemma truthy_or (a b : jsval) : JS.truthy b = true -> JS.truthy (JS.or a b) = true.
Proof.
  intros Hb. unfold JS.or. destruct (JS.truthy a) eqn:Ha; assumption.
Qed.

Lemma or_truthy_idem (a b c : jsval) :
  JS.truthy b = true -> JS.or (JS.or a b) c = JS.or a b.
Proof.
  intros Hb. unfold JS.or at 1. now rewrite truthy_or.
Qed.

Lemma truthy_JStr (s : string) : JS.truthy (JStr s) = negb (String.eqb s "").
Proof. now destruct s. Qed.

(** What [replace(/\/+$/, "")] leaves does not end in a slash, and only
    slashes were cut. *)
Lemma strip_trailing_slashes_spec (s : string) :
  exists n, s = JS.strip_trailing_slashes s ++ String.concat "" (repeat "/" n).
Proof.
  induction s as [|ch s [n IH]]; [now exists 0%nat|].
  cbn [JS.strip_trailing_slashes].
  destruct (JS.strip_trailing_slashes s) as [|d t] eqn:Hs.
  - destruct (Ascii.eqb_spec ch "/") as [->|Hne].
    + exists (S n). rewrite IH. cbn. destruct n; [reflexivity|]. cbn. reflexivity.
    + exists n. now rewrite IH at 1.
  - exists n. now rewrite IH at 1.
Qed.

Lemma strip_trailing_slashes_last (s : string) (t : string) :
  JS.strip_trailing_slashes s <> t ++ "/".
Proof.
  revert t. induction s as [|ch s IH]; intros t.
  - now destruct t.
  - cbn [JS.strip_trailing_slashes].
    destruct (JS.strip_trailing_slashes s) as [|d u] eqn:Hs.
    + destruct (Ascii.eqb_spec ch "/") as [->|Hne].
      * now destruct t.
      * destruct t as [|e [|? ?]]; cbv [String.append]; congruence.
    + destruct t as [|e t]; cbv [String.append]; fold String.append; [congruence|].
      intros [= -> Hu]. now apply (IH t).
Qed.

(** The base URL that request URLs are built from never ends with a
    slash. *)
Theorem base_has_no_trailing_slash (v : jsval) (base : string) :
  base_of v = Ok base -> ends_with_slash base = false.
Proof.
  unfold base_of. destruct (as_string (JS.or v (JStr ""))) as [s|e]; [|discriminate].
  intros [= <-]. induction s as [|ch s IH]; [reflexivity|].
  cbn [JS.strip_trailing_slashes].
  destruct (JS.strip_trailing_slashes s) as [|d t] eqn:Hs.
  - destruct (Ascii.eqb ch "/") eqn:Hch; [reflexivity|]. cbn. exact Hch.
  - exact IH.
Qed.

Lemma base_of_local_server :
  base_of (JStr "http://127.0.0.1:8000///") = Ok "http://127.0.0.1:8000" /\
  ends_with_slash "http://127.0.0.1:8000" = false.
Proof.
  split; [reflexivity|].
  exact (base_has_no_trailing_slash (JStr "http://127.0.0.1:8000///")
           "http://127.0.0.1:8000" eq_refl).
Defined.

(** ** The configuration resolver *)

Ltac run_step :=
  cbv [bind ret throw try_catch gets modify lift_result fetch res_json
       read_bundled assign_CFG].

Ltac ctx_simpl := cbn [CFG set_CFG net_log own log_request set_own default fst snd].

Section Resolver.

Context {X : Type}.
Implicit Types (w : world) (st : context X) (c srv : gmap string jsval).

(** A second call returns the cached object and touches nothing. *)
Lemma loadConfig_cached w st c :
  CFG st = Some c -> loadConfig w st = (Ok c, st).
Proof.
  intros Hc. cbv [loadConfig]. run_step. now rewrite Hc.
Qed.

(** Without the bundled resource the first call throws, and the cache
    stays empty. *)
Lemma loadConfig_unreadable w st :
  CFG st = None -> bundled w = None -> loadConfig w st = (Throw ResourceError, st).
Proof.
  intros Hc Hb. cbv [loadConfig]. run_step. now rewrite Hc, Hb.
Qed.

(** The first call when the override fails: the cache holds the bundled
    object, and the override request, if it could be built, was sent. *)
Lemma loadConfig_defaults w st c :
  CFG st = None -> bundled w = Some c ->
  override_fails w st c = true ->
  loadConfig w st =
  (Ok c, mkContext (Some c) (net_log st ++ config_requests w st) (own st)).
Proof.
  intros Hc Hb Hfail. unfold override_fails in Hfail. unfold config_requests.
  cbv [loadConfig]. run_step. rewrite Hc, Hb. ctx_simpl.
  destruct (base_of (JS.field c "server_url")) as [base|e]; ctx_simpl.
  - destruct (net w (net_log st) (override_request base)) as [|r]; [reflexivity|].
    cbn [failed_override] in Hfail.
    destruct (resp_ok r); [|reflexivity].
    destruct (json_body r) as [srv|]; [|reflexivity].
    destruct srv; try discriminate Hfail; reflexivity.
  - unfold set_CFG. now rewrite app_nil_r.
Qed.

(** The first call when the override answers with a JSON object. *)
Lemma loadConfig_override w st c base r srv :
  CFG st = None -> bundled w = Some c ->
  base_of (JS.field c "server_url") = Ok base ->
  net w (net_log st) (override_request base) = Response r ->
  resp_ok r = true -> json_body r = Some (JObj srv) ->
  loadConfig w st =
  (Ok (overwrite "token" srv (overwrite "server_url" srv c)),
   mkContext (Some (overwrite "token" srv (overwrite "server_url" srv c)))
             (net_log st ++ [override_request base]) (own st)).
Proof.
  intros Hc Hb Hbase Hnet Hok Hjson. cbv [loadConfig]. run_step.
  rewrite Hc, Hb. ctx_simpl. rewrite Hbase, Hnet, Hok, Hjson.
  cbn [get JS.prop]. unfold overwrite.
  destruct (JS.truthy (JS.field srv "server_url")),
           (JS.truthy (JS.field srv "token")); reflexivity.
Qed.

(** When the override does not fail, it answered with a JSON object. *)
Lemma override_succeeds w st c :
  override_fails w st c = false ->
  exists base r srv,
    base_of (JS.field c "server_url") = Ok base /\
    net w (net_log st) (override_request base) = Response r /\
    resp_ok r = true /\ json_body r = Some (JObj srv).
Proof.
  unfold override_fails. intros Hfail.
  destruct (base_of (JS.field c "server_url")) as [base|e]; [|discriminate].
  destruct (net w (net_log st) (override_request base)) as [|r] eqn:Hnet; [discriminate|].
  cbn [failed_override] in Hfail. apply orb_false_iff in Hfail as [Hok Hobj].
  apply negb_false_iff in Hok.
  destruct (json_body r) as [[| | | | | |srv]|] eqn:Hjson; try discriminate.
  now exists base, r, srv.
Qed.

(** A field other than [k] is not touched by [overwrite k]. *)
Lemma overwrite_other k k' srv c : k <> k' -> overwrite k srv c !! k' = c !! k'.
Proof.
  intros Hne. unfold overwrite. destruct (JS.truthy (JS.field srv k)); [|reflexivity].
  now apply lookup_insert_ne.
Qed.

Lemma overwrite_same k srv c :
  overwrite k srv c !! k = if JS.truthy (JS.field srv k) then srv !! k else c !! k.
Proof.
  unfold overwrite. destruct (JS.truthy (JS.field srv k)) eqn:Ht; [|reflexivity].
  rewrite lookup_insert_eq. symmetry. now apply truthy_field_lookup.
Qed.

(** Whatever the override does, a readable bundled resource gives a
    configuration: the one then cached, equal to the bundled one on every
    field but [server_url] and [token]. *)
Lemma loadConfig_fresh w st c :
  CFG st = None -> bundled w = Some c ->
  exists c',
    loadConfig w st =
      (Ok c', mkContext (Some c') (net_log st ++ config_requests w st) (own st)) /\
    forall k, k <> "server_url" -> k <> "token" -> c' !! k = c !! k.
Proof.
  intros Hc Hb. destruct (override_fails w st c) eqn:Hfail.
  - exists c. split; [now apply loadConfig_defaults | reflexivity].
  - destruct (override_succeeds w st c Hfail) as (base & r & srv & Hbase & Hnet & Hok & Hjson).
    eexists. split.
    + rewrite (loadConfig_override w st c base r srv Hc Hb Hbase Hnet Hok Hjson).
      unfold config_requests. now rewrite Hc, Hb, Hbase.
    + intros k Hs Ht. rewrite overwrite_other by congruence.
      now rewrite overwrite_other by congruence.
Qed.

(** [loadConfig] throws in one case only. *)
Lemma loadConfig_throws w st e st' :
  loadConfig w st = (Throw e, st') ->
  CFG st = None /\ bundled w = None /\ e = ResourceError /\ st' = st.
Proof.
  intros Hthrow. destruct (CFG st) as [c0|] eqn:Hc.
  - rewrite (loadConfig_cached w st c0 Hc) in Hthrow. discriminate.
  - destruct (bundled w) as [c|] eqn:Hb.
    + destruct (loadConfig_fresh w st c Hc Hb) as (c' & Heq & _).
      rewrite Heq in Hthrow. discriminate.
    + rewrite (loadConfig_unreadable w st Hc Hb) in Hthrow.
      now injection Hthrow as <- <-.
Qed.

(** The network calls of one [loadConfig]. *)
Lemma loadConfig_log w st :
  net_log (snd (loadConfig w st)) = (net_log st ++ config_requests w st)%list.
Proof.
  destruct (CFG st) as [c0|] eqn:Hc.
  - rewrite (loadConfig_cached w st c0 Hc). unfold config_requests. rewrite Hc.
    cbn. now rewrite app_nil_r.
  - destruct (bundled w) as [c|] eqn:Hb.
    + destruct (loadConfig_fresh w st c Hc Hb) as (c' & -> & _). reflexivity.
    + rewrite (loadConfig_unreadable w st Hc Hb). unfold config_requests.
      rewrite Hc, Hb. cbn. now rewrite app_nil_r.
Qed.

(** [loadConfig] keeps the state that is the context's own. *)
Lemma loadConfig_own w st : own (snd (loadConfig w st)) = own st.
Proof.
  destruct (CFG st) as [c0|] eqn:Hc.
  - now rewrite (loadConfig_cached w st c0 Hc).
  - destruct (bundled w) as [c|] eqn:Hb.
    + destruct (loadConfig_fresh w st c Hc Hb) as (c' & -> & _). reflexivity.
    + now rewrite (loadConfig_unreadable w st Hc Hb).
Qed.

(** Once resolved, the configuration stays: a later call in the same
    context returns the same object and sends nothing. *)
Theorem loadConfig_idempotent w st c st' :
  loadConfig w st = (Ok c, st') -> loadConfig w st' = (Ok c, st').
Proof.
  intros Hrun. apply loadConfig_cached.
  destruct (CFG st) as [c0|] eqn:Hc.
  - rewrite (loadConfig_cached w st c0 Hc) in Hrun. now injection Hrun as <- <-.
  - destruct (bundled w) as [cb|] eqn:Hb.
    + destruct (loadConfig_fresh w st cb Hc Hb) as (c' & Heq & _).
      rewrite Heq in Hrun. now injection Hrun as <- <-.
    + rewrite (loadConfig_unreadable w st Hc Hb) in Hrun. discriminate.
Qed.

End Resolver.

(** The second resolution after an override: the overridden object again,
    with the one request of the first resolution in the log. *)
Lemma loadConfig_twice_scenario :
  loadConfig Scenario.w_override
    (mkContext (Some (<["token" := JStr "abc"]>
                        (<["server_url" := JStr "https://x.test"]>
                           (Scenario.config "/api" "local"))))
               [override_request "http://127.0.0.1:8000"] tt) =
  (Ok (<["token" := JStr "abc"]>
         (<["server_url" := JStr "https://x.test"]> (Scenario.config "/api" "local"))),
   mkContext (Some (<["token" := JStr "abc"]>
                      (<["server_url" := JStr "https://x.test"]>
                         (Scenario.config "/api" "local"))))
             [override_request "http://127.0.0.1:8000"] tt).
Proof.
  exact (loadConfig_idempotent Scenario.w_override (Scenario.fresh tt) _ _ eq_refl).
Defined.

(** ** Claims about the configuration resolver *)

(** C5. For a well-formed override response (a success status and a JSON
    object as body), the first [loadConfig] of a context overwrites
    exactly the fields [server_url] and [token] that the response holds
    and that are not empty, and every other field keeps its bundled
    value; the result is also what the context caches. *)
Theorem loadConfig_overwrites_present_fields {X} (w : world) (st : context X)
    (c srv : gmap string jsval) (base : string) (r : response) :
  CFG st = None ->
  bundled w = Some c ->
  base_of (JS.field c "server_url") = Ok base ->
  net w (net_log st) (override_request base) = Response r ->
  resp_ok r = true ->
  json_body r = Some (JObj srv) ->
  exists c' st',
    loadConfig w st = (Ok c', st') /\
    CFG st' = Some c' /\
    c' !! "server_url" =
      (if JS.truthy (JS.field srv "server_url") then srv !! "server_url"
       else c !! "server_url") /\
    c' !! "token" =
      (if JS.truthy (JS.field srv "token") then srv !! "token" else c !! "token") /\
    forall k, k <> "server_url" -> k <> "token" -> c' !! k = c !! k.
Proof.
  intros Hc Hb Hbase Hnet Hok Hjson.
  eexists _, _. split; [eapply loadConfig_override; eassumption|].
  split; [reflexivity|]. repeat split.
  - rewrite overwrite_other by discriminate. apply overwrite_same.
  - rewrite overwrite_same. now rewrite overwrite_other by discriminate.
  - intros k Hs Ht. rewrite overwrite_other by congruence.
    now rewrite overwrite_other by congruence.
Qed.

(** The scenario of the specification: the endpoint publishes
    [{server_url:"https://x.test", token:"abc"}]; the resolved
    configuration has that address and token and the bundled prefix. *)
Lemma loadConfig_override_scenario :
  exists c' st',
    loadConfig Scenario.w_override (Scenario.fresh tt) = (Ok c', st') /\
    CFG st' = Some c' /\
    c' !! "server_url" = Some (JStr "https://x.test") /\
    c' !! "token" = Some (JStr "abc") /\
    c' !! "api_prefix" = Some (JStr "/api").
Proof.
  destruct (loadConfig_overwrites_present_fields
              Scenario.w_override (Scenario.fresh tt)
              (Scenario.config "/api" "local") Scenario.override_body
              "http://127.0.0.1:8000"
              (mkResponse 200 "OK" (Some (JObj Scenario.override_body)))
              eq_refl eq_refl eq_refl eq_refl eq_refl eq_refl)
    as (c' & st' & Hrun & Hcache & Hurl & Htoken & Hframe).
  exists c', st'. repeat split; try assumption.
  now rewrite (Hframe "api_prefix").
Defined.

(** The same scenario through [getServerInfo]: the base URL, the prefix
    and the token the submission client works with. *)
Lemma override_scenario_server_info :
  fst (Background.getServerInfo Scenario.w_override (Scenario.fresh [])) =
  Ok ("https://x.test", JStr "/api", JStr "abc").
Proof.
  vm_compute. reflexivity.
Qed.

(** C6. When the override fails (network error, a status that is no
    success, a body that does not parse or is no object), the first
    [loadConfig] of a context returns exactly the bundled configuration
    and does not raise; and whatever the world and the state, a
    [loadConfig] that raises has found the cache empty and the bundled
    resource unreadable. *)
Theorem loadConfig_failed_override_gives_defaults {X} (w : world) (st : context X)
    (c : gmap string jsval) :
  CFG st = None ->
  bundled w = Some c ->
  override_fails w st c = true ->
  (exists st', loadConfig w st = (Ok c, st') /\ CFG st' = Some c /\ own st' = own st) /\
  (forall (w0 : world) (st0 st1 : context X) (e : js_error),
      loadConfig w0 st0 = (Throw e, st1) -> CFG st0 = None /\ bundled w0 = None).
Proof.
  intros Hc Hb Hfail. split.
  - eexists. split; [now apply loadConfig_defaults|]. split; reflexivity.
  - intros w0 st0 st1 e Hthrow.
    destruct (loadConfig_throws w0 st0 e st1 Hthrow) as (H0 & H1 & _). now split.
Qed.

(** A server that answers 500 with a page that is no JSON: the bundled
    configuration stands. *)
Lemma loadConfig_broken_server_scenario :
  (exists st',
     loadConfig Scenario.w_broken (Scenario.fresh tt) =
       (Ok (Scenario.config "/api" "local"), st') /\
     CFG st' = Some (Scenario.config "/api" "local") /\ own st' = tt) /\
  (forall (w0 : world) (st0 st1 : context unit) (e : js_error),
      loadConfig w0 st0 = (Throw e, st1) -> CFG st0 = None /\ bundled w0 = None).
Proof.
  exact (loadConfig_failed_override_gives_defaults
           Scenario.w_broken (Scenario.fresh tt) (Scenario.config "/api" "local")
           eq_refl eq_refl eq_refl).
Defined.

(** The override URL has the prefix [/api] whatever [api_prefix] says; it
    is the URL of the specification exactly when the effective prefix
    prints as [/api]. *)
Lemma override_url_fixed_prefix (c : gmap string jsval) (base : string) :
  JS.ToString (JS.or (JS.field c "api_prefix") (JStr "/api")) = "/api" ->
  req_url (override_request base) = spec_override_url c base.
Proof.
  intros Hprefix. unfold spec_override_url. now rewrite Hprefix.
Qed.

(** C3, at a package configured with the prefix [/v2]: the override
    request goes to [/api/ext/config], where the specification has
    [/v2/ext/config]; the connectivity probe and the queue request of the
    same package do use [/v2]. *)
Theorem override_url_ignores_api_prefix :
  net_log (snd (loadConfig Scenario.w_prefix_v2 (Scenario.fresh tt))) =
    [mkRequest GET "http://127.0.0.1:8000/api/ext/config" [] None] /\
  spec_override_url (Scenario.config "/v2" "local") "http://127.0.0.1:8000" =
    "http://127.0.0.1:8000/v2/ext/config" /\
  net_log (snd (testServer Scenario.w_prefix_v2 (Scenario.fresh tt))) =
    [mkRequest GET "http://127.0.0.1:8000/api/ext/config" [] None;
     mkRequest GET "http://127.0.0.1:8000/v2/ping" [] None] /\
  fst (Background.getServerInfo Scenario.w_prefix_v2 (Scenario.fresh [])) =
    Ok ("http://127.0.0.1:8000", JStr "/v2", JStr "local").
Proof.
  repeat split; vm_compute; reflexivity.
Qed.

(** ** The submission client *)

Module BackgroundFacts.
Import Background.

Implicit Types (w : world) (st : state) (url modo : jsval).

Lemma notify_run w title message st :
  notify w title message st =
  (Ok tt, mkContext (CFG st) (net_log st) (own st ++ shown w (title, message))%list).
Proof.
  unfold notify, shown. destruct (chrome_notifications w).
  - reflexivity.
  - cbv [ret]. rewrite app_nil_r. now destruct st.
Qed.

(** [getServerInfo] over a resolved configuration. *)
Lemma getServerInfo_run w st cfg st1 base :
  loadConfig w st = (Ok cfg, st1) ->
  base_of (JS.field cfg "server_url") = Ok base ->
  getServerInfo w st =
  (Ok (base, JS.or (JS.field cfg "api_prefix") (JStr "/api"),
       JS.or (JS.field cfg "token") (JStr "")), st1).
Proof.
  intros Hload Hbase. cbv [getServerInfo bind lift_result ret].
  now rewrite Hload, Hbase.
Qed.

(** What [getServerInfo] returns comes from the resolved configuration:
    the base is its [server_url] without the slashes that end it, the
    prefix its [api_prefix] or [/api], the token its [token] or the empty
    string. *)
Lemma getServerInfo_inv w st base apiPrefix token st1 :
  getServerInfo w st = (Ok (base, apiPrefix, token), st1) ->
  exists cfg,
    loadConfig w st = (Ok cfg, st1) /\
    base_of (JS.field cfg "server_url") = Ok base /\
    apiPrefix = JS.or (JS.field cfg "api_prefix") (JStr "/api") /\
    token = JS.or (JS.field cfg "token") (JStr "").
Proof.
  cbv [getServerInfo bind lift_result ret].
  destruct (loadConfig w st) as [[cfg|e] st'] eqn:Hload; [|discriminate].
  destruct (base_of (JS.field cfg "server_url")) as [b|e] eqn:Hbase; [|discriminate].
  intros [= <- <- <- <-]. now exists cfg.
Qed.

(** [getServerInfo] sends what [loadConfig] sends, and notifies nothing. *)
Lemma getServerInfo_effects w st :
  net_log (snd (getServerInfo w st)) = (net_log st ++ config_requests w st)%list /\
  own (snd (getServerInfo w st)) = own st.
Proof.
  pose proof (loadConfig_log w st) as Hlog. pose proof (loadConfig_own w st) as Hown.
  cbv [getServerInfo bind lift_result ret].
  destruct (loadConfig w st) as [[cfg|e] st'] eqn:Hload; cbn [snd] in *.
  - destruct (base_of (JS.field cfg "server_url")); now split.
  - now split.
Qed.

(** The call that is not attempted: the notification, and no request
    beyond those of the resolution. *)
Lemma sendDownload_misconfigured w st url modo base apiPrefix token st1 :
  getServerInfo w st = (Ok (base, apiPrefix, token), st1) ->
  base = "" \/ JS.truthy token = false ->
  sendDownload w url modo st =
  (Ok tt, mkContext (CFG st1) (net_log st1) (own st1 ++ shown w misconfigured_notice)%list).
Proof.
  intros Hinfo Hempty. unfold sendDownload. cbv [bind]. rewrite Hinfo.
  assert (negb (JS.truthy (JStr base)) || negb (JS.truthy token) = true) as ->.
  { destruct Hempty as [-> | ->]; [reflexivity | apply orb_true_r]. }
  apply notify_run.
Qed.

(** The message of a rejected submission, case by case. *)
Lemma error_message_display (r : response) :
  error_message (default JNull (json_body r)) r = display_error r.
Proof.
  unfold error_message, display_error, JS.and, JS.or.
  set (data := default JNull (json_body r)).
  destruct (JS.truthy data) eqn:Hdata; cbn [andb];
    [destruct (JS.truthy (JS.prop data "detail")) eqn:Hdetail;
     [|destruct (JS.truthy (JS.prop data "message")) eqn:Hmessage]|];
    rewrite ?Hdata, ?Hdetail, ?Hmessage, ?truthy_JStr; try reflexivity;
    destruct (String.eqb (statusText r) "") eqn:Htext; cbn [negb];
    rewrite ?truthy_JStr, ?Htext; reflexivity.
Qed.

(** The call that is attempted: one POST to the queue, and the
    notification of its outcome. *)
Lemma sendDownload_posts w st url modo base apiPrefix token st1 s :
  getServerInfo w st = (Ok (base, apiPrefix, token), st1) ->
  base <> "" -> JS.truthy token = true ->
  as_string (JS.or (match modo with JUndefined => JStr "video" | _ => modo end)
                   (JStr "video")) = Ok s ->
  let rq := queue_request base apiPrefix token url (JS.upper s) in
  sendDownload w url modo st =
  (Ok tt, mkContext (CFG st1) (net_log st1 ++ [rq])
            (own st1 ++ shown w (notice_of (net w (net_log st1) rq)))%list).
Proof.
  intros Hinfo Hbase Htoken Hmode rq. unfold sendDownload. cbv [bind]. rewrite Hinfo.
  assert (negb (JS.truthy (JStr base)) || negb (JS.truthy token) = false) as ->.
  { rewrite Htoken. destruct base; [contradiction | reflexivity]. }
  cbv [lift_result]. rewrite Hmode. cbv [try_catch bind fetch]. fold rq.
  destruct (net w (net_log st1) rq) as [|r] eqn:Hnet; cbn [notice_of].
  - now rewrite notify_run.
  - assert (res_json r (log_request rq st1) =
            (match json_body r with Some v => Ok v | None => Throw SyntaxError end,
             log_request rq st1)) as ->.
    { unfold res_json. now destruct (json_body r). }
    assert (forall b : option jsval,
               (let (r0, st') :=
                  (match b with Some v => Ok v | None => Throw SyntaxError end,
                   log_request rq st1) in
                match r0 with
                | Ok a => (Ok a, st')
                | Throw _ => ret JNull st'
                end) = (Ok (default JNull b), log_request rq st1)) as Hdata.
    { now intros [v|]. }
    rewrite Hdata. destruct (resp_ok r); cbn [negb].
    + now rewrite notify_run.
    + rewrite notify_run. now rewrite error_message_display.
Qed.

(** A rejected [getServerInfo] rejects [sendDownload]. *)
Lemma sendDownload_throws w st url modo e st1 :
  getServerInfo w st = (Throw e, st1) -> sendDownload w url modo st = (Throw e, st1).
Proof.
  intros Hinfo. unfold sendDownload. cbv [bind]. now rewrite Hinfo.
Qed.

(** A mode that is no string rejects [sendDownload] before any POST. *)
Lemma sendDownload_bad_mode w st url modo base apiPrefix token st1 e :
  getServerInfo w st = (Ok (base, apiPrefix, token), st1) ->
  base <> "" -> JS.truthy token = true ->
  as_string (JS.or (match modo with JUndefined => JStr "video" | _ => modo end)
                   (JStr "video")) = Throw e ->
  sendDownload w url modo st = (Throw e, st1).
Proof.
  intros Hinfo Hbase Htoken Hmode. unfold sendDownload. cbv [bind]. rewrite Hinfo.
  assert (negb (JS.truthy (JStr base)) || negb (JS.truthy token) = false) as ->.
  { rewrite Htoken. destruct base; [contradiction | reflexivity]. }
  cbv [lift_result]. now rewrite Hmode.
Qed.

(** The requests of one [sendDownload]: those of the resolution, then at
    most one POST, which carries the URL and the mode in capitals. *)
Lemma sendDownload_log w st url modo :
  exists posts,
    net_log (snd (sendDownload w url modo st)) =
      (net_log st ++ config_requests w st ++ posts)%list /\
    forall rq, In rq posts ->
      exists base apiPrefix token s,
        as_string (JS.or (match modo with JUndefined => JStr "video" | _ => modo end)
                         (JStr "video")) = Ok s /\
        rq = queue_request base apiPrefix token url (JS.upper s).
Proof.
  destruct (getServerInfo_effects w st) as [Hlog _].
  destruct (getServerInfo w st) as [[[[base apiPrefix] token]|e] st1] eqn:Hinfo;
    cbn [snd] in Hlog.
  - destruct (negb (JS.truthy (JStr base)) || negb (JS.truthy token)) eqn:Hempty.
    + exists []. split; [|intros rq []].
      rewrite (sendDownload_misconfigured w st url modo base apiPrefix token st1 Hinfo).
      * cbn [snd net_log]. now rewrite app_nil_r.
      * apply orb_true_iff in Hempty as [Hb | Ht].
        -- left. destruct base; [reflexivity | discriminate].
        -- right. now apply negb_true_iff.
    + apply orb_false_iff in Hempty as [Hb Ht]. apply negb_false_iff in Hb, Ht.
      assert (base <> "") as Hbase by (intros ->; discriminate).
      destruct (as_string (JS.or (match modo with JUndefined => JStr "video" | _ => modo end)
                                 (JStr "video"))) as [s|e] eqn:Hmode.
      * exists [queue_request base apiPrefix token url (JS.upper s)]. split.
        -- rewrite (sendDownload_posts w st url modo base apiPrefix token st1 s
                      Hinfo Hbase Ht Hmode).
           cbn [snd net_log]. now rewrite Hlog, <- app_assoc.
        -- intros rq [<- | []]. now exists base, apiPrefix, token, s.
      * exists []. split; [|intros rq []].
        rewrite (sendDownload_bad_mode w st url modo base apiPrefix token st1 e
                   Hinfo Hbase Ht Hmode).
        cbn [snd]. now rewrite app_nil_r.
  - exists []. split; [|intros rq []].
    rewrite (sendDownload_throws w st url modo e st1 Hinfo). cbn [snd].
    now rewrite app_nil_r.
Qed.

End BackgroundFacts.

(** ** Claims about the submission client *)

(** C2, as stated, fails in a context that has not resolved its
    configuration yet: the package has no token and the server is down,
    and the call still sends the override request before it gives up. *)
Lemma sendDownload_no_token_fetches_config :
  fst (Background.getServerInfo Scenario.w_no_token (Scenario.fresh [])) =
    Ok ("http://127.0.0.1:8000", JStr "/api", JStr "") /\
  net_log (snd (Background.sendDownload Scenario.w_no_token
                  (JStr "https://video.test/watch?v=1") (JStr "video")
                  (Scenario.fresh []))) =
    [mkRequest GET "http://127.0.0.1:8000/api/ext/config" [] None] /\
  fst (Background.sendDownload Scenario.w_no_token
         (JStr "https://video.test/watch?v=1") (JStr "video") (Scenario.fresh [])) =
    Ok tt.
Proof.
  repeat split; vm_compute; reflexivity.
Qed.

(** C2, amended. When the base URL or the token of the effective
    configuration is empty, [sendDownload] returns without a value,
    reports the missing configuration as a notification and sends no
    POST: the requests of the call are those of the configuration
    resolution, that is none when the configuration is cached and
    otherwise at most the override GET. *)
Theorem sendDownload_misconfigured_sends_no_post (w : world) (st st1 : Background.state)
    (url modo : jsval) (base : string) (apiPrefix token : jsval) :
  Background.getServerInfo w st = (Ok (base, apiPrefix, token), st1) ->
  base = "" \/ JS.truthy token = false ->
  exists st',
    Background.sendDownload w url modo st = (Ok tt, st') /\
    own st' = (own st ++ shown w misconfigured_notice)%list /\
    net_log st' = (net_log st ++ config_requests w st)%list /\
    (CFG st <> None -> net_log st' = net_log st) /\
    (forall rq, In rq (config_requests w st) ->
       exists b, rq = mkRequest GET (b ++ "/api/ext/config") [] None).
Proof.
  intros Hinfo Hempty.
  destruct (BackgroundFacts.getServerInfo_effects w st) as [Hlog Hown].
  rewrite Hinfo in Hlog, Hown. cbn [snd] in Hlog, Hown.
  eexists. split; [eapply BackgroundFacts.sendDownload_misconfigured; eassumption|].
  cbn [own net_log]. rewrite Hown, Hlog. repeat split.
  - intros Hcached. unfold config_requests.
    destruct (CFG st); [now rewrite app_nil_r | contradiction].
  - unfold config_requests. intros rq Hin.
    destruct (CFG st); [contradiction|].
    destruct (bundled w) as [c|]; [|contradiction].
    destruct (base_of (JS.field c "server_url")) as [b|]; [|contradiction].
    destruct Hin as [<- | []]. now exists b.
Qed.

(** With the configuration cached, the call without a token sends
    nothing at all. *)
Lemma sendDownload_no_token_cached :
  exists st',
    Background.sendDownload Scenario.w_no_token (JStr "https://video.test/watch?v=1")
      (JStr "video") (mkContext (Some (Scenario.config "/api" "")) [] []) = (Ok tt, st') /\
    own st' = [misconfigured_notice] /\
    net_log st' = [].
Proof.
  destruct (sendDownload_misconfigured_sends_no_post
              Scenario.w_no_token
              (mkContext (Some (Scenario.config "/api" "")) [] [])
              (mkContext (Some (Scenario.config "/api" "")) [] [])
              (JStr "https://video.test/watch?v=1") (JStr "video")
              "http://127.0.0.1:8000" (JStr "/api") (JStr "")
              eq_refl (or_intror eq_refl))
    as (st' & Hrun & Hown & Hlog & _).
  exists st'. repeat split; assumption.
Defined.

(** C9, as stated, fails for a response without a status text (every
    HTTP/2 response): the display error is then the fixed text, not the
    status text. *)
Lemma empty_status_text_display_error :
  own (snd (Background.sendDownload Scenario.w_broken_h2
              (JStr "https://video.test/watch?v=1") (JStr "video") (Scenario.fresh []))) =
    [("Error al enviar URL", JStr "Error HTTP")] /\
  JStr "Error HTTP" <> JStr (statusText Scenario.h2_error).
Proof.
  split; [vm_compute; reflexivity | discriminate].
Qed.

(** C9, amended. A submission that reaches the network is one POST to
    [{base}{prefix}/queue], where [base] is the configured [server_url]
    without trailing slashes and [prefix] the configured [api_prefix] or
    [/api]; it carries [Authorization: Bearer {token}] and the body
    [{url, source: "EXT", mode}] with the mode in capitals, "VIDEO" or
    "PLAYLIST".  On a response that is no success the display error is
    the body's [detail] when it is there and not empty, else its
    [message] likewise, else the status text when it is not empty, else
    the text "Error HTTP". *)
Theorem sendDownload_request_and_display_error (w : world) (st st1 : Background.state)
    (url : jsval) (m : mode) (cfg : gmap string jsval) (base : string) :
  loadConfig w st = (Ok cfg, st1) ->
  base_of (JS.field cfg "server_url") = Ok base ->
  base <> "" ->
  JS.truthy (JS.field cfg "token") = true ->
  let rq :=
    mkRequest POST
      (base ++ JS.ToString (JS.or (JS.field cfg "api_prefix") (JStr "/api")) ++ "/queue")
      [("Authorization", "Bearer " ++ JS.ToString (JS.field cfg "token"));
       ("Content-Type", "application/json")]
      (Some (<["url" := url]>
               (<["source" := JStr "EXT"]> (<["mode" := JStr (mode_upper m)]> ∅)))) in
  exists st',
    Background.sendDownload w url (JStr (mode_name m)) st = (Ok tt, st') /\
    net_log st' = (net_log st1 ++ [rq])%list /\
    (forall r, net w (net_log st1) rq = Response r -> resp_ok r = false ->
       own st' = (own st ++ shown w ("Error al enviar URL", display_error r))%list).
Proof.
  intros Hload Hbase Hne Htoken rq.
  pose proof (loadConfig_own w st) as Hown. rewrite Hload in Hown. cbn [snd] in Hown.
  pose proof (BackgroundFacts.getServerInfo_run w st cfg st1 base Hload Hbase) as Hinfo.
  assert (JS.or (JS.field cfg "token") (JStr "") = JS.field cfg "token") as Htok.
  { unfold JS.or. now rewrite Htoken. }
  rewrite Htok in Hinfo.
  assert (as_string (JS.or (JStr (mode_name m)) (JStr "video")) = Ok (mode_name m)) as Hmode.
  { now destruct m. }
  pose proof (BackgroundFacts.sendDownload_posts w st url (JStr (mode_name m)) base _ _ st1
                (mode_name m) Hinfo Hne Htoken Hmode) as Hrun.
  cbv zeta in Hrun.
  assert (Background.queue_request base
            (JS.or (JS.field cfg "api_prefix") (JStr "/api")) (JS.field cfg "token")
            url (JS.upper (mode_name m)) = rq) as Hrq.
  { unfold rq, Background.queue_request, Background.queue_body. now destruct m. }
  rewrite Hrq in Hrun.
  eexists. split; [exact Hrun|]. cbn [net_log own]. split; [reflexivity|].
  intros r Hnet Hfail. rewrite Hnet. cbn [notice_of]. now rewrite Hfail, Hown.
Qed.

(** The scenario of the specification: the queue answers 403 with
    [{"detail":"bad token"}], and the display error is "bad token". *)
Lemma sendDownload_bad_token_scenario :
  exists st',
    Background.sendDownload Scenario.w_bad_token (JStr "https://video.test/watch?v=1")
      (JStr "playlist")
      (mkContext (Some (Scenario.config "/api" "local")) [] []) = (Ok tt, st') /\
    net_log st' =
      [mkRequest POST "http://127.0.0.1:8000/api/queue"
         [("Authorization", "Bearer local"); ("Content-Type", "application/json")]
         (Some (<["url" := JStr "https://video.test/watch?v=1"]>
                  (<["source" := JStr "EXT"]> (<["mode" := JStr "PLAYLIST"]> ∅))))] /\
    own st' = [("Error al enviar URL", JStr "bad token")].
Proof.
  destruct (sendDownload_request_and_display_error
              Scenario.w_bad_token
              (mkContext (Some (Scenario.config "/api" "local")) [] [])
              (mkContext (Some (Scenario.config "/api" "local")) [] [])
              (JStr "https://video.test/watch?v=1") Playlist
              (Scenario.config "/api" "local") "http://127.0.0.1:8000"
              eq_refl eq_refl ltac:(discriminate) eq_refl)
    as (st' & Hrun & Hlog & Herr).
  exists st'. split; [exact Hrun|]. split; [exact Hlog|].
  exact (Herr (mkResponse 403 "Forbidden" (Some (JObj Scenario.bad_token_body)))
              eq_refl eq_refl).
Defined.

(** ** Claims about the message router *)

Section Router.
Import Background.

Implicit Types (w : world) (st : state) (msg : gmap string jsval) (sender : sender_info).

(** A download message that passes the URL checks is handed to the
    asynchronous block. *)
Lemma onMessage_passes w msg sender st :
  JS.is_string "DIRECT_DOWNLOAD" (JS.field msg "type") = true ->
  JS.truthy (finalUrl msg sender) = true ->
  JS.is_true (JS.field msg "fromFloat")
    || JS.test_http (JS.ToString (finalUrl msg sender)) = true ->
  onMessage w msg sender st =
  download_and_respond w (finalUrl msg sender) (JS.field msg "modo") st.
Proof.
  intros Htype Hurl Hcheck. unfold onMessage. rewrite Htype, Hurl. cbn [negb].
  destruct (JS.is_true (JS.field msg "fromFloat")); cbn [negb andb orb] in *.
  - reflexivity.
  - now rewrite Hcheck.
Qed.


(** A download message without any URL is answered at once. *)
Lemma onMessage_no_url w msg sender st :
  JS.is_string "DIRECT_DOWNLOAD" (JS.field msg "type") = true ->
  JS.truthy (finalUrl msg sender) = false ->
  onMessage w msg sender st = (mkListenerResult (Some reply_no_url) false, st).
Proof.
  intros Htype Hurl. unfold onMessage. now rewrite Htype, Hurl.
Qed.

(** The mode the listener passes on, [msg.modo || "video"], is never
    empty, so [sendDownload] takes it as it is. *)
Lemma passed_mode_string (modo : jsval) (s : string) :
  JS.or modo (JStr "video") = JStr s ->
  as_string (JS.or (match JStr s with JUndefined => JStr "video" | v => v end)
                   (JStr "video")) = Ok s.
Proof.
  intros Hmode.
  assert (JS.truthy (JStr s) = true) as Hs by (rewrite <- Hmode; now apply truthy_or).
  destruct s; [discriminate|reflexivity].
Qed.

(** Setting [fromFloat] changes neither the URL nor the mode of a
    message. *)
Lemma finalUrl_fromFloat msg sender v :
  finalUrl (<["fromFloat" := v]> msg) sender = finalUrl msg sender.
Proof.
  unfold finalUrl, JS.field. now rewrite lookup_insert_ne by discriminate.
Qed.

End Router.


(** C1, as stated, fails: the queue rejects the token with 403 and
    [{"detail":"bad token"}], and the popup is still answered
    [{ok: true}]; the rejection only shows as a notification. *)
Lemma bad_token_reply_is_ok :
  Background.reply
    (fst (Background.onMessage Scenario.w_bad_token
            (Popup.direct_download (JStr "https://video.test/watch?v=1") (JStr "video"))
            Popup.sender (Scenario.fresh []))) = Some Background.reply_ok /\
  Background.reply_ok <> spec_rejected_reply /\
  own (snd (Background.onMessage Scenario.w_bad_token
              (Popup.direct_download (JStr "https://video.test/watch?v=1") (JStr "video"))
              Popup.sender (Scenario.fresh []))) =
    [("Error al enviar URL", JStr "bad token")].
Proof.
  split; [vm_compute; reflexivity|]. split; [|vm_compute; reflexivity].
  intros Heq. apply (f_equal (fun o => o !! "errorKind")) in Heq.
  vm_compute in Heq. discriminate Heq.
Qed.

(** C1, amended. For every download message that passes the URL checks,
    with a mode that is a string or missing and a configuration the
    server data can be read from, the reply delivered once the
    submission has settled is [{ok: true}] whatever its outcome, and the
    channel is kept open for it; the outcome itself (misconfigured,
    unreachable, rejected with its display error, or queued) reaches the
    user as a notification only. *)
Theorem reply_is_ok_whatever_the_outcome (w : world) (msg : gmap string jsval)
    (sender : Background.sender_info) (st st1 : Background.state)
    (base s : string) (apiPrefix token : jsval) :
  JS.is_string "DIRECT_DOWNLOAD" (JS.field msg "type") = true ->
  JS.truthy (Background.finalUrl msg sender) = true ->
  JS.is_true (JS.field msg "fromFloat")
    || JS.test_http (JS.ToString (Background.finalUrl msg sender)) = true ->
  JS.or (JS.field msg "modo") (JStr "video") = JStr s ->
  Background.getServerInfo w st = (Ok (base, apiPrefix, token), st1) ->
  exists st',
    Background.onMessage w msg sender st =
      (Background.mkListenerResult (Some Background.reply_ok) true, st') /\
    own st' =
      (own st ++
       shown w (outcome_notice w base token (net_log st1)
                  (Background.queue_request base apiPrefix token
                     (Background.finalUrl msg sender) (JS.upper s))))%list.
Proof.
  intros Htype Hurl Hcheck Hmode Hinfo.
  rewrite (onMessage_passes w msg sender st Htype Hurl Hcheck).
  unfold Background.download_and_respond, outcome_notice. rewrite Hmode.
  destruct (BackgroundFacts.getServerInfo_effects w st) as [_ Hown].
  rewrite Hinfo in Hown. cbn [snd] in Hown.
  destruct (negb (JS.truthy (JStr base)) || negb (JS.truthy token)) eqn:Hempty.
  - rewrite (BackgroundFacts.sendDownload_misconfigured w st _ _ base apiPrefix token st1 Hinfo).
    + eexists. split; [reflexivity|]. cbn [own]. now rewrite Hown.
    + apply orb_true_iff in Hempty as [Hb | Ht].
      * left. destruct base; [reflexivity | discriminate].
      * right. now apply negb_true_iff.
  - apply orb_false_iff in Hempty as [Hb Ht]. apply negb_false_iff in Hb, Ht.
    assert (base <> "") as Hbase by (intros ->; discriminate).
    rewrite (BackgroundFacts.sendDownload_posts w st _ _ base apiPrefix token st1 s
               Hinfo Hbase Ht).
    + eexists. split; [reflexivity|]. cbn [own]. now rewrite Hown.
    + now apply (passed_mode_string (JS.field msg "modo")).
Qed.

(** The rejected token, through the theorem: the reply is [{ok: true}]
    and the notification carries "bad token". *)
Lemma reply_is_ok_bad_token_scenario :
  exists st',
    Background.onMessage Scenario.w_bad_token
      (Popup.direct_download (JStr "https://video.test/watch?v=1") (JStr "video"))
      Popup.sender (Scenario.fresh []) =
      (Background.mkListenerResult (Some Background.reply_ok) true, st') /\
    own st' = [("Error al enviar URL", JStr "bad token")].
Proof.
  destruct (reply_is_ok_whatever_the_outcome
              Scenario.w_bad_token
              (Popup.direct_download (JStr "https://video.test/watch?v=1") (JStr "video"))
              Popup.sender (Scenario.fresh [])
              (mkContext (Some (Scenario.config "/api" "local"))
                         [override_request "http://127.0.0.1:8000"] [])
              "http://127.0.0.1:8000" "video" (JStr "/api") (JStr "local")
              eq_refl eq_refl eq_refl eq_refl eq_refl)
    as (st' & Hrun & Hown).
  exists st'. split; [exact Hrun|]. exact Hown.
Defined.

(** C4. A download message that does not come from the floating control
    and whose URL, not empty, does not start with [http://] or
    [https://] is answered with the invalid-URL reply at once, and the
    state is left as it was: nothing is submitted.  The same message with
    [fromFloat: true] skips the check and goes on to [sendDownload] with
    the same URL and mode; when the server data is usable, the POST for
    that URL is sent. *)
Theorem strict_url_check_unless_from_float (w : world) (msg : gmap string jsval)
    (sender : Background.sender_info) (st : Background.state) :
  JS.is_string "DIRECT_DOWNLOAD" (JS.field msg "type") = true ->
  JS.is_true (JS.field msg "fromFloat") = false ->
  JS.truthy (Background.finalUrl msg sender) = true ->
  JS.test_http (JS.ToString (Background.finalUrl msg sender)) = false ->
  Background.onMessage w msg sender st =
    (Background.mkListenerResult (Some Background.reply_invalid_url) false, st) /\
  Background.onMessage w (<["fromFloat" := JBool true]> msg) sender st =
    Background.download_and_respond w (Background.finalUrl msg sender)
      (JS.field msg "modo") st /\
  (forall base apiPrefix token st1 s,
      Background.getServerInfo w st = (Ok (base, apiPrefix, token), st1) ->
      base <> "" -> JS.truthy token = true ->
      JS.or (JS.field msg "modo") (JStr "video") = JStr s ->
      net_log (snd (Background.onMessage w (<["fromFloat" := JBool true]> msg) sender st)) =
        (net_log st1 ++
         [Background.queue_request base apiPrefix token
            (Background.finalUrl msg sender) (JS.upper s)])%list).
Proof.
  intros Htype Hfloat Hurl Htest.
  assert (Background.onMessage w (<["fromFloat" := JBool true]> msg) sender st =
          Background.download_and_respond w (Background.finalUrl msg sender)
            (JS.field msg "modo") st) as Hbypass.
  { rewrite onMessage_passes.
    - rewrite finalUrl_fromFloat. unfold JS.field at 1.
      now rewrite lookup_insert_ne by discriminate.
    - unfold JS.field. now rewrite lookup_insert_ne by discriminate.
    - now rewrite finalUrl_fromFloat.
    - unfold JS.field at 1. now rewrite lookup_insert_eq. }
  split; [|split].
  - unfold Background.onMessage. now rewrite Htype, Hurl, Hfloat, Htest.
  - exact Hbypass.
  - intros base apiPrefix token st1 s Hinfo Hbase Htoken Hmode.
    rewrite Hbypass. unfold Background.download_and_respond. rewrite Hmode.
    rewrite (BackgroundFacts.sendDownload_posts w st _ _ base apiPrefix token st1 s
               Hinfo Hbase Htoken).
    + reflexivity.
    + now apply (passed_mode_string (JS.field msg "modo")).
Qed.

(** The scenario of the specification: "not-a-url" typed in the
    popup. *)
Lemma not_a_url_scenario :
  Background.onMessage Scenario.w_accepting
    (Popup.direct_download (JStr "not-a-url") (JStr "video")) Popup.sender
    (Scenario.fresh []) =
    (Background.mkListenerResult (Some Background.reply_invalid_url) false,
     Scenario.fresh []) /\
  net_log (snd (Background.onMessage Scenario.w_accepting
                  (<["fromFloat" := JBool true]>
                     (Popup.direct_download (JStr "not-a-url") (JStr "video")))
                  Popup.sender (Scenario.fresh []))) =
    [override_request "http://127.0.0.1:8000";
     Background.queue_request "http://127.0.0.1:8000" (JStr "/api") (JStr "local")
       (JStr "not-a-url") "VIDEO"].
Proof.
  destruct (strict_url_check_unless_from_float
              Scenario.w_accepting
              (Popup.direct_download (JStr "not-a-url") (JStr "video")) Popup.sender
              (Scenario.fresh []) eq_refl eq_refl eq_refl eq_refl)
    as (Hinvalid & _ & Hposts).
  split; [exact Hinvalid|].
  exact (Hposts "http://127.0.0.1:8000" (JStr "/api") (JStr "local")
           (mkContext (Some (Scenario.config "/api" "local"))
                      [override_request "http://127.0.0.1:8000"] [])
           "video" eq_refl ltac:(discriminate) eq_refl eq_refl).
Defined.

(** ** Claims about the page floating control *)

(** The requests of the asynchronous block are those of its
    [sendDownload]. *)
Lemma download_and_respond_log (w : world) (url modo : jsval) (st : Background.state) :
  net_log (snd (Background.download_and_respond w url modo st)) =
  net_log (snd (Background.sendDownload w url (JS.or modo (JStr "video")) st)).
Proof.
  unfold Background.download_and_respond.
  now destruct (Background.sendDownload w url (JS.or modo (JStr "video")) st) as [[[]|e] st'].
Qed.

Lemma queue_body_mode (url : jsval) (modeUpper : string) :
  Background.queue_body url modeUpper !! "mode" = Some (JStr modeUpper).
Proof.
  unfold Background.queue_body.
  rewrite lookup_insert_ne by discriminate. rewrite lookup_insert_ne by discriminate.
  apply lookup_insert_eq.
Qed.

Lemma config_requests_get {X} (w : world) (st : context X) (rq : request) :
  In rq (config_requests w st) -> req_method rq = GET.
Proof.
  unfold config_requests.
  destruct (CFG st); [contradiction|].
  destruct (bundled w) as [c|]; [|contradiction].
  destruct (base_of (JS.field c "server_url")); [|contradiction].
  now intros [<- | []].
Qed.

(** C10. The message a click on the floating control sends is a download
    message for the tracked URL, with mode "video" and [fromFloat: true];
    and whatever the background does with it, a POST it sends has the
    mode "VIDEO", never "PLAYLIST". *)
Theorem floating_control_submits_video_only (p : Content.page) :
  Content.btn_click p !! "type" = Some (JStr "DIRECT_DOWNLOAD") /\
  Content.btn_click p !! "url" = Some (JStr (Content.currentUrl p)) /\
  Content.btn_click p !! "modo" = Some (JStr "video") /\
  Content.btn_click p !! "fromFloat" = Some (JBool true) /\
  forall (w : world) (sender : Background.sender_info) (st : Background.state),
  exists sent,
    net_log (snd (Background.onMessage w (Content.btn_click p) sender st)) =
      (net_log st ++ sent)%list /\
    forall rq, In rq sent -> req_method rq = POST ->
      exists body, req_body rq = Some body /\ body !! "mode" = Some (JStr "VIDEO").
Proof.
  repeat split.
  intros w sender st.
  destruct (JS.truthy (Background.finalUrl (Content.btn_click p) sender)) eqn:Hurl.
  - rewrite onMessage_passes; [|reflexivity|exact Hurl|reflexivity].
    rewrite download_and_respond_log.
    destruct (BackgroundFacts.sendDownload_log w st
                (Background.finalUrl (Content.btn_click p) sender)
                (JS.or (JS.field (Content.btn_click p) "modo") (JStr "video")))
      as (posts & Hlog & Hposts).
    exists (config_requests w st ++ posts)%list. split; [exact Hlog|].
    intros rq Hin Hpost. apply in_app_or in Hin as [Hin | Hin].
    + apply config_requests_get in Hin. congruence.
    + destruct (Hposts rq Hin) as (base & apiPrefix & token & s & Hmode & ->).
      injection Hmode as <-.
      eexists. split; [reflexivity|]. apply queue_body_mode.
  - rewrite onMessage_no_url; [|reflexivity|exact Hurl].
    exists []. split; [cbn; now rewrite app_nil_r | intros rq []].
Qed.

(** ** Claims about the popup *)

(** C7. Whenever a click on one of the three send buttons sends a
    message, then once the exchange with the background is over,
    whatever its outcome, the popup's mode is "video", its mode switch
    says so, and its URL field is empty. *)
Theorem popup_resets_after_round_trip (w : world) (b : Popup.send_button) (tab : jsval)
    (u u1 : Popup.ui) (bg : Background.state) (msg : gmap string jsval) :
  Popup.click b tab u = (Some msg, u1) ->
  Popup.currentMode (fst (Popup.round_trip w b tab u bg)) = "video" /\
  Popup.urlInput_value (fst (Popup.round_trip w b tab u bg)) = "" /\
  Popup.modeSwitch_textContent (fst (Popup.round_trip w b tab u bg)) = "Modo: Video".
Proof.
  intros Hclick. unfold Popup.round_trip. rewrite Hclick.
  destruct (Background.onMessage w msg Popup.sender bg) as [res bg'].
  destruct b; repeat split.
Qed.

(** A playlist submission that the server rejects: the popup is back in
    video mode with an empty field. *)
Lemma popup_resets_after_rejection :
  Popup.currentMode
    (fst (Popup.round_trip Scenario.w_bad_token Popup.DownloadBtn JUndefined
            (Scenario.popup_ui " https://video.test/list?p=7 " "playlist")
            (Scenario.fresh []))) = "video" /\
  Popup.urlInput_value
    (fst (Popup.round_trip Scenario.w_bad_token Popup.DownloadBtn JUndefined
            (Scenario.popup_ui " https://video.test/list?p=7 " "playlist")
            (Scenario.fresh []))) = "" /\
  Popup.modeSwitch_textContent
    (fst (Popup.round_trip Scenario.w_bad_token Popup.DownloadBtn JUndefined
            (Scenario.popup_ui " https://video.test/list?p=7 " "playlist")
            (Scenario.fresh []))) = "Modo: Video".
Proof.
  exact (popup_resets_after_round_trip
           Scenario.w_bad_token Popup.DownloadBtn JUndefined
           (Scenario.popup_ui " https://video.test/list?p=7 " "playlist")
           (Popup.set_button Popup.DownloadBtn (Popup.mkButtonView true "Enviando...")
              (Scenario.popup_ui " https://video.test/list?p=7 " "playlist"))
           (Scenario.fresh [])
           (Popup.direct_download (JStr "https://video.test/list?p=7") (JStr "playlist"))
           eq_refl).
Defined.

(** The same submission reaches the queue as a playlist. *)
Lemma popup_playlist_submission :
  net_log
    (snd (Popup.round_trip Scenario.w_accepting Popup.DownloadBtn JUndefined
            (Scenario.popup_ui " https://video.test/list?p=7 " "playlist")
            (Scenario.fresh []))) =
  [override_request "http://127.0.0.1:8000";
   Background.queue_request "http://127.0.0.1:8000" (JStr "/api") (JStr "local")
     (JStr "https://video.test/list?p=7") "PLAYLIST"].
Proof.
  vm_compute. reflexivity.
Qed.

(** ** Claims about the floating-control flag *)

Lemma getFloatEnabled_set (enabled : jsval) (storage : gmap string jsval) :
  Popup.getFloatEnabled (Popup.setFloatEnabled enabled storage) = JS.truthy enabled.
Proof.
  unfold Popup.getFloatEnabled, Popup.setFloatEnabled, JS.field, JS.to_boolean.
  rewrite lookup_insert_eq. cbn. now destruct (JS.truthy enabled).
Qed.

(** What the content script does at startup, by cases on the body and
    the stored flag. *)
Lemma startup_cases (storage : gmap string jsval) (doc : Content.document) :
  Content.startup storage doc =
  if Content.has_body doc && JS.is_true (JS.field storage STORAGE_FLOAT)
  then Content.mkPage (Some (Content.mkButton "⬇" "block")) true (Content.location_href doc)
  else Content.start doc.
Proof.
  unfold Content.startup, Content.addOrInit, Content.initFloatState, Content.set_enabled,
    Content.createButton, Content.removeButton, Content.start.
  destruct (Content.has_body doc); cbn [negb andb orb]; [|reflexivity].
  destruct (JS.is_true (JS.field storage STORAGE_FLOAT)); reflexivity.
Qed.

(** C8, as stated, fails in a document without a body (an SVG image
    opened in a tab): the flag is stored as [true], and the restarted
    content script creates no control. *)
Lemma no_body_no_overlay :
  Popup.getFloatEnabled (Popup.setFloatEnabled (JBool true) ∅) = true /\
  Content.btn (Content.startup (Popup.setFloatEnabled (JBool true) ∅) Scenario.svg_page) = None /\
  Content.overlay_present
    (Content.startup (Popup.setFloatEnabled (JBool true) ∅) Scenario.svg_page) = false.
Proof.
  repeat split.
Qed.

(** C8, amended. A missing flag reads as disabled, in the popup and in
    the content script.  In a document that has a body, a content script
    restarted after [true] was written shows the control, and one
    restarted after [false] was written has none; every reader gets back
    the boolean that was written. *)
Theorem float_flag_round_trip (storage : gmap string jsval) (doc : Content.document) :
  Content.has_body doc = true ->
  (storage !! STORAGE_FLOAT = None ->
     Popup.getFloatEnabled storage = false /\
     Content.floatEnabled (Content.startup storage doc) = false /\
     Content.btn (Content.startup storage doc) = None) /\
  Content.btn (Content.startup (Popup.setFloatEnabled (JBool true) storage) doc) =
    Some (Content.mkButton "⬇" "block") /\
  Content.overlay_present
    (Content.startup (Popup.setFloatEnabled (JBool true) storage) doc) = true /\
  Content.btn (Content.startup (Popup.setFloatEnabled (JBool false) storage) doc) = None /\
  (forall b : bool,
     Popup.getFloatEnabled (Popup.setFloatEnabled (JBool b) storage) = b /\
     Content.floatEnabled (Content.startup (Popup.setFloatEnabled (JBool b) storage) doc) = b).
Proof.
  intros Hbody.
  assert (forall b : bool,
             JS.is_true (JS.field (Popup.setFloatEnabled (JBool b) storage) STORAGE_FLOAT) = b)
    as Hread.
  { intros b. apply (getFloatEnabled_set (JBool b) storage). }
  split; [|split; [|split; [|split]]].
  - intros Habsent. unfold Popup.getFloatEnabled. rewrite startup_cases.
    unfold JS.field. rewrite Habsent, Hbody. now cbn.
  - now rewrite startup_cases, Hbody, Hread.
  - now rewrite startup_cases, Hbody, Hread.
  - now rewrite startup_cases, Hbody, Hread.
  - intros b. split; [apply (getFloatEnabled_set (JBool b))|].
    rewrite startup_cases, Hbody, Hread. now destruct b.
Qed.

(** On a web page: the toggle of the popup, then a reload. *)
Lemma float_flag_web_page :
  (Popup.getFloatEnabled ∅ = false /\
   Content.floatEnabled (Content.startup ∅ Scenario.web_page) = false /\
   Content.btn (Content.startup ∅ Scenario.web_page) = None) /\
  Content.overlay_present
    (Content.startup (Popup.setFloatEnabled (JBool true) ∅) Scenario.web_page) = true /\
  Content.btn
    (Content.startup (Popup.setFloatEnabled (JBool false) ∅) Scenario.web_page) = None.
Proof.
  destruct (float_flag_round_trip ∅ Scenario.web_page eq_refl)
    as (Habsent & _ & Hon & Hoff & _).
  split; [exact (Habsent eq_refl)|]. split; [exact Hon | exact Hoff].
Defined.

(** The toggle of the popup stores the flipped flag, which the next page
    start follows. *)
Lemma toggle_then_reload (u : Popup.ui) (storage : gmap string jsval)
    (doc : Content.document) :
  Content.has_body doc = true ->
  Content.overlay_present
    (Content.startup (snd (fst (Popup.toggleFloat_click u storage))) doc) =
  negb (Popup.floatEnabled u).
Proof.
  intros Hbody. cbn [Popup.toggleFloat_click fst snd].
  rewrite startup_cases, Hbody.
  pose proof (getFloatEnabled_set (JBool (negb (Popup.floatEnabled u))) storage) as Hread.
  unfold Popup.getFloatEnabled in Hread. rewrite Hread. cbn [JS.truthy andb].
  now destruct (Popup.floatEnabled u).
Qed.

(** The broadcast of the toggle leaves a running page as a restart
    would: the control is there exactly when the popup switched it on. *)
Lemma broadcast_matches_storage (u : Popup.ui) (storage : gmap string jsval)
    (doc : Content.document) :
  Content.has_body doc = true ->
  Content.overlay_present
    (Content.onMessage (snd (Popup.toggleFloat_click u storage)) doc
       (Content.startup storage doc)) =
  negb (Popup.floatEnabled u).
Proof.
  intros Hbody. rewrite startup_cases, Hbody. cbn [andb].
  unfold Content.onMessage, Content.set_enabled, Content.createButton.
  cbn [Popup.toggleFloat_click snd]. rewrite Hbody.
  destruct (JS.is_true (JS.field storage STORAGE_FLOAT)), (Popup.floatEnabled u);
    reflexivity.
Qed.

(** ** The connectivity probe *)

Section Probe.

Context {X : Type}.
Implicit Types (w : world) (st : context X).

(** [testServer] by cases: what it returns, and the state it leaves. *)
Lemma testServer_run w st :
  testServer w st =
  match loadConfig w st with
  | (Ok cfg, st1) =>
      match base_of (JS.field cfg "server_url") with
      | Ok base =>
          let rq := mkRequest GET
                      (base ++ JS.ToString (JS.or (JS.field cfg "api_prefix") (JStr "/api"))
                            ++ "/ping") [] None in
          match net w (net_log st1) rq with
          | Response r => (Ok (resp_ok r), log_request rq st1)
          | NetworkError => (Ok false, log_request rq st1)
          end
      | Throw _ => (Ok false, st1)
      end
  | (Throw _, st1) => (Ok false, st1)
  end.
Proof.
  unfold testServer. cbv [try_catch bind lift_result ret fetch].
  destruct (loadConfig w st) as [[cfg|e] st1]; [|reflexivity].
  destruct (base_of (JS.field cfg "server_url")) as [base|e]; [|reflexivity].
  cbv zeta. now destruct (net w (net_log st1) _).
Qed.

(** [testServer] never rejects: whatever goes wrong (the package cannot
    be read, the server URL is no string, the network fails), it answers
    [false]; it answers [true] exactly when the ping, sent to
    [{base}{prefix}/ping], came back with a 2xx status. *)
Theorem testServer_never_rejects w st :
  exists b st',
    testServer w st = (Ok b, st') /\
    own st' = own st /\
    (b = true <->
     exists cfg st1 base r,
       loadConfig w st = (Ok cfg, st1) /\
       base_of (JS.field cfg "server_url") = Ok base /\
       net w (net_log st1)
         (mkRequest GET
            (base ++ JS.ToString (JS.or (JS.field cfg "api_prefix") (JStr "/api")) ++ "/ping")
            [] None) = Response r /\
       resp_ok r = true).
Proof.
  rewrite testServer_run. pose proof (loadConfig_own w st) as Hown.
  destruct (loadConfig w st) as [[cfg|e] st1] eqn:Hload; cbn [snd] in Hown.
  - destruct (base_of (JS.field cfg "server_url")) as [base|e] eqn:Hbase.
    + cbv zeta.
      destruct (net w (net_log st1) _) as [|r] eqn:Hnet.
      * eexists _, _. split; [reflexivity|]. split; [exact Hown|]. split; [discriminate|].
        intros (cfg' & st1' & base' & r' & [= <- <-] & Hb & Hn & _).
        rewrite Hbase in Hb. injection Hb as <-. rewrite Hnet in Hn. discriminate.
      * eexists _, _. split; [reflexivity|]. split; [exact Hown|]. split.
        -- intros Hok. now exists cfg, st1, base, r.
        -- intros (cfg' & st1' & base' & r' & [= <- <-] & Hb & Hn & Hok).
           rewrite Hbase in Hb. injection Hb as <-. rewrite Hnet in Hn.
           now injection Hn as <-.
    + eexists _, _. split; [reflexivity|]. split; [exact Hown|]. split; [discriminate|].
      intros (cfg' & st1' & base' & r' & [= <- <-] & Hb & _). rewrite Hbase in Hb.
      discriminate.
  - eexists _, _. split; [reflexivity|]. split; [exact Hown|]. split; [discriminate|].
    intros (cfg' & st1' & base' & r' & Habs & _). discriminate.
Qed.

(** A failed override is final for the context: the bundled values are
    cached, and no later call asks the server again, even in a world
    [w'] where it would answer. *)
Theorem failed_override_is_not_retried w w' st (c : gmap string jsval) :
  CFG st = None ->
  bundled w = Some c ->
  override_fails w st c = true ->
  loadConfig w' (snd (loadConfig w st)) = (Ok c, snd (loadConfig w st)) /\
  net_log (snd (loadConfig w st)) = (net_log st ++ config_requests w st)%list.
Proof.
  intros Hc Hb Hfail. rewrite (loadConfig_defaults w st c Hc Hb Hfail). cbn [snd].
  split; [now apply loadConfig_cached | reflexivity].
Qed.

End Probe.

(** The server is down when the popup opens and up a moment later: the
    context keeps the bundled address and token. *)
Lemma failed_override_scenario :
  loadConfig Scenario.w_override (snd (loadConfig Scenario.w_broken (Scenario.fresh tt))) =
    (Ok (Scenario.config "/api" "local"),
     snd (loadConfig Scenario.w_broken (Scenario.fresh tt))) /\
  net_log (snd (loadConfig Scenario.w_broken (Scenario.fresh tt))) =
    [override_request "http://127.0.0.1:8000"].
Proof.
  exact (failed_override_is_not_retried Scenario.w_broken Scenario.w_override
           (Scenario.fresh tt) (Scenario.config "/api" "local") eq_refl eq_refl eq_refl).
Defined.

(** ** One notification per submission *)


(** ** What the router lets through *)

(** A string that [String.prefix p] accepts starts with [p]. *)
Lemma prefix_app (p s : string) :
  String.prefix p s = true -> exists rest, s = p ++ rest.
Proof.
  revert s. induction p as [|a p IH]; intros s Hp.
  - now exists s.
  - destruct s as [|b s]; [discriminate|]. cbn in Hp.
    destruct (ascii_dec a b) as [<-|Hne]; [|discriminate].
    destruct (IH s Hp) as [rest ->]. now exists rest.
Qed.

(** The strict check accepts the strings that start with [http://] or
    [https://], in lower case, and no other. *)
Lemma test_http_spec (s : string) :
  JS.test_http s = true <->
  exists rest, s = "http://" ++ rest \/ s = "https://" ++ rest.
Proof.
  unfold JS.test_http. split.
  - intros Htest. apply orb_true_iff in Htest as [Hp | Hp];
      destruct (prefix_app _ _ Hp) as [rest ->]; exists rest; [now left | now right].
  - intros [rest [-> | ->]]; destruct rest; reflexivity.
Qed.

Lemma queue_body_url (url : jsval) (modeUpper : string) :
  Background.queue_body url modeUpper !! "url" = Some url.
Proof.
  unfold Background.queue_body. apply lookup_insert_eq.
Qed.

(** The mode the listener passes on, [msg.modo || "video"], goes
    through the default and the [||] of [sendDownload] unchanged. *)
Lemma passed_mode (modo : jsval) :
  JS.or (match JS.or modo (JStr "video") with
         | JUndefined => JStr "video"
         | _ => JS.or modo (JStr "video")
         end)
        (JStr "video") = JS.or modo (JStr "video").
Proof.
  assert (JS.truthy (JS.or modo (JStr "video")) = true) as Ht by now apply truthy_or.
  set (m := JS.or modo (JStr "video")) in *.
  destruct m eqn:Hm; try discriminate Ht; unfold JS.or; now rewrite Ht.
Qed.

(** The requests one run of the listener adds: those of the
    configuration resolution and at most one POST, for the effective URL
    of the message and its mode in capitals; none at all unless the
    message passes the checks. *)
Lemma onMessage_log (w : world) (msg : gmap string jsval)
    (sender : Background.sender_info) (st : Background.state) :
  exists sent,
    net_log (snd (Background.onMessage w msg sender st)) = (net_log st ++ sent)%list /\
    forall rq, In rq sent -> req_method rq = POST ->
      JS.truthy (Background.finalUrl msg sender) = true /\
      (JS.is_true (JS.field msg "fromFloat")
       || JS.test_http (JS.ToString (Background.finalUrl msg sender)) = true) /\
      exists base apiPrefix token s,
        as_string (JS.or (JS.field msg "modo") (JStr "video")) = Ok s /\
        rq = Background.queue_request base apiPrefix token
               (Background.finalUrl msg sender) (JS.upper s).
Proof.
  assert (exists sent : list request,
             net_log st = (net_log st ++ sent)%list /\
             forall rq, In rq sent -> req_method rq = POST ->
               JS.truthy (Background.finalUrl msg sender) = true /\
               (JS.is_true (JS.field msg "fromFloat")
                || JS.test_http (JS.ToString (Background.finalUrl msg sender)) = true) /\
               exists base apiPrefix token s,
                 as_string (JS.or (JS.field msg "modo") (JStr "video")) = Ok s /\
                 rq = Background.queue_request base apiPrefix token
                        (Background.finalUrl msg sender) (JS.upper s)) as Hnone.
  { exists []. split; [now rewrite app_nil_r | intros rq []]. }
  destruct (JS.is_string "DIRECT_DOWNLOAD" (JS.field msg "type")) eqn:Htype.
  - destruct (JS.truthy (Background.finalUrl msg sender)) eqn:Hurl.
    + destruct (JS.is_true (JS.field msg "fromFloat")
                || JS.test_http (JS.ToString (Background.finalUrl msg sender))) eqn:Hcheck.
      * rewrite (onMessage_passes w msg sender st Htype Hurl Hcheck).
        rewrite download_and_respond_log.
        destruct (BackgroundFacts.sendDownload_log w st (Background.finalUrl msg sender)
                    (JS.or (JS.field msg "modo") (JStr "video")))
          as (posts & Hlog & Hposts).
        exists (config_requests w st ++ posts)%list. split; [exact Hlog|].
        intros rq Hin Hpost. split; [reflexivity|]. split; [reflexivity|].
        apply in_app_or in Hin as [Hin | Hin].
        -- apply config_requests_get in Hin. congruence.
        -- destruct (Hposts rq Hin) as (base & apiPrefix & token & s & Hmode & ->).
           exists base, apiPrefix, token, s. split; [|reflexivity].
           now rewrite passed_mode in Hmode.
      * unfold Background.onMessage. rewrite Htype, Hurl. cbn [negb].
        apply orb_false_iff in Hcheck as [-> ->]. exact Hnone.
    + rewrite (onMessage_no_url w msg sender st Htype Hurl). exact Hnone.
  - unfold Background.onMessage. rewrite Htype. exact Hnone.
Qed.

(** Every POST that a message not marked [fromFloat] causes is for a URL
    that starts with [http://] or [https://]: free text from the popup
    never reaches the queue otherwise. *)
Theorem unmarked_messages_post_http_urls_only (w : world) (msg : gmap string jsval)
    (sender : Background.sender_info) (st : Background.state) :
  JS.is_true (JS.field msg "fromFloat") = false ->
  exists sent,
    net_log (snd (Background.onMessage w msg sender st)) = (net_log st ++ sent)%list /\
    forall rq, In rq sent -> req_method rq = POST ->
      exists body url rest,
        req_body rq = Some body /\ body !! "url" = Some url /\
        (JS.ToString url = "http://" ++ rest \/ JS.ToString url = "https://" ++ rest).
Proof.
  intros Hfloat. destruct (onMessage_log w msg sender st) as (sent & Hlog & Hsent).
  exists sent. split; [exact Hlog|]. intros rq Hin Hpost.
  destruct (Hsent rq Hin Hpost) as (_ & Hcheck & base & apiPrefix & token & s & _ & ->).
  rewrite Hfloat in Hcheck. cbn [orb] in Hcheck.
  apply test_http_spec in Hcheck as [rest Hrest].
  eexists _, (Background.finalUrl msg sender), rest.
  split; [reflexivity|]. split; [apply queue_body_url | exact Hrest].
Qed.

(** A link typed in the popup, sent to an accepting server. *)
Lemma typed_link_scenario :
  exists sent,
    net_log (snd (Background.onMessage Scenario.w_accepting
                    (Popup.direct_download (JStr "https://video.test/watch?v=1") (JStr "video"))
                    Popup.sender (Scenario.fresh []))) = ([] ++ sent)%list /\
    forall rq, In rq sent -> req_method rq = POST ->
      exists body url rest,
        req_body rq = Some body /\ body !! "url" = Some url /\
        (JS.ToString url = "http://" ++ rest \/ JS.ToString url = "https://" ++ rest).
Proof.
  exact (unmarked_messages_post_http_urls_only Scenario.w_accepting
           (Popup.direct_download (JStr "https://video.test/watch?v=1") (JStr "video"))
           Popup.sender (Scenario.fresh []) eq_refl).
Defined.

(** ** The send buttons of the popup *)


Lemma or_truthy_l (a b : jsval) : JS.truthy a = true -> JS.or a b = a.
Proof.
  intros Ha. unfold JS.or. now rewrite Ha.
Qed.


(** Once the exchange is over the popup reports success, whatever the
    background answered and whatever became of the submission: the label
    is green with the button's fixed text, and the button is enabled
    again. *)
Theorem popup_reports_success_whatever_the_reply (w : world) (b : Popup.send_button)
    (tab : jsval) (u u1 : Popup.ui) (bg : Background.state) (msg : gmap string jsval) :
  Popup.click b tab u = (Some msg, u1) ->
  Popup.status_color (fst (Popup.round_trip w b tab u bg)) = "green" /\
  Popup.status_text (fst (Popup.round_trip w b tab u bg)) =
    match b with
    | Popup.DownloadBtn => "Solicitud enviada. Revisa la app MVideoDk."
    | Popup.DownloadCurrentBtn => "Video en cola (si el servidor está activo)."
    | Popup.DownloadPlaylistBtn => "Playlist en cola (si el servidor está activo)."
    end /\
  Popup.disabled
    (match b with
     | Popup.DownloadBtn => Popup.downloadBtn (fst (Popup.round_trip w b tab u bg))
     | Popup.DownloadCurrentBtn =>
         Popup.downloadCurrentBtn (fst (Popup.round_trip w b tab u bg))
     | Popup.DownloadPlaylistBtn =>
         Popup.downloadPlaylistBtn (fst (Popup.round_trip w b tab u bg))
     end) = false.
Proof.
  intros Hclick. unfold Popup.round_trip. rewrite Hclick.
  destruct (Background.onMessage w msg Popup.sender bg) as [res bg'].
  destruct b; repeat split.
Qed.

(** Free text that is no link: the background answers "URL inválida",
    and the popup says the request was sent. *)
Lemma popup_reports_success_for_invalid_url :
  Background.reply
    (fst (Background.onMessage Scenario.w_accepting
            (Popup.direct_download (JStr "not-a-url") (JStr "video")) Popup.sender
            (Scenario.fresh []))) = Some Background.reply_invalid_url /\
  Popup.status_color
    (fst (Popup.round_trip Scenario.w_accepting Popup.DownloadBtn JUndefined
            (Scenario.popup_ui "not-a-url" "video") (Scenario.fresh []))) = "green" /\
  Popup.status_text
    (fst (Popup.round_trip Scenario.w_accepting Popup.DownloadBtn JUndefined
            (Scenario.popup_ui "not-a-url" "video") (Scenario.fresh []))) =
    "Solicitud enviada. Revisa la app MVideoDk.".
Proof.
  split; [reflexivity|].
  destruct (popup_reports_success_whatever_the_reply
              Scenario.w_accepting Popup.DownloadBtn JUndefined
              (Scenario.popup_ui "not-a-url" "video")
              (Popup.set_button Popup.DownloadBtn (Popup.mkButtonView true "Enviando...")
                 (Scenario.popup_ui "not-a-url" "video"))
              (Scenario.fresh [])
              (Popup.direct_download (JStr "not-a-url") (JStr "video")) eq_refl)
    as (Hcolor & Htext & _).
  split; [exact Hcolor | exact Htext].
Defined.

(** ** The mode of the popup over a session *)

(** A click on a send button leaves the mode and the switch alone. *)
Lemma click_keeps_mode (b : Popup.send_button) (tab : jsval) (u : Popup.ui) :
  Popup.currentMode (snd (Popup.click b tab u)) = Popup.currentMode u /\
  Popup.modeSwitch_textContent (snd (Popup.click b tab u)) =
    Popup.modeSwitch_textContent u.
Proof.
  destruct b; cbn [Popup.click];
    match goal with |- context [if ?c then _ else _] => destruct c end;
    now split.
Qed.

Lemma mode_shown_step (u : Popup.ui) (e : PopupSession.event) :
  PopupSession.mode_shown u -> PopupSession.mode_shown (PopupSession.step u e).
Proof.
  intros Hu. destruct e as [text| |b tab|b|]; cbn [PopupSession.step].
  - exact Hu.
  - unfold Popup.modeSwitch_click, PopupSession.mode_shown. cbn.
    destruct Hu as [[-> _] | [-> _]]; cbn; [now right | now left].
  - unfold PopupSession.mode_shown.
    destruct (click_keeps_mode b tab u) as [-> ->]. exact Hu.
  - left. now destruct b.
  - exact Hu.
Qed.

Lemma mode_shown_run (es : list PopupSession.event) (u : Popup.ui) :
  PopupSession.mode_shown u -> PopupSession.mode_shown (PopupSession.run es u).
Proof.
  revert u. induction es as [|e es IH]; intros u Hu; [exact Hu|].
  cbn. apply IH. now apply mode_shown_step.
Qed.

Lemma direct_download_modo (url modo : jsval) :
  JS.field (Popup.direct_download url modo) "modo" = modo.
Proof.
  unfold Popup.direct_download, JS.field.
  rewrite lookup_insert_ne by discriminate. rewrite lookup_insert_ne by discriminate.
  now rewrite lookup_insert_eq.
Qed.

(** The message of a click carries the popup's mode, or the mode of the
    button. *)
Lemma click_modo (b : Popup.send_button) (tab : jsval) (u u' : Popup.ui)
    (msg : gmap string jsval) :
  Popup.click b tab u = (Some msg, u') ->
  JS.field msg "modo" =
  match b with
  | Popup.DownloadBtn => JStr (Popup.currentMode u)
  | Popup.DownloadCurrentBtn => JStr "video"
  | Popup.DownloadPlaylistBtn => JStr "playlist"
  end.
Proof.
  destruct b; cbn [Popup.click];
    match goal with |- context [if ?c then _ else _] => destruct c end;
    intros [= <- _]; apply direct_download_modo.
Qed.

(** From the moment the popup opens, whatever is typed, switched,
    clicked, answered or toggled: the mode is "video" or "playlist" and
    the switch shows it; every message a send button sends carries one
    of the two; and every POST the background sends for it has the mode
    "VIDEO" or "PLAYLIST". *)
Theorem popup_session_modes (storage : gmap string jsval) (u0 : Popup.ui)
    (es : list PopupSession.event) :
  PopupSession.mode_shown (PopupSession.run es (PopupSession.open_view storage u0)) /\
  forall (b : Popup.send_button) (tab : jsval),
    match Popup.click b tab (PopupSession.run es (PopupSession.open_view storage u0)) with
    | (Some msg, _) =>
        (JS.field msg "modo" = JStr "video" \/ JS.field msg "modo" = JStr "playlist") /\
        forall (w : world) (bg : Background.state),
        exists sent,
          net_log (snd (Background.onMessage w msg Popup.sender bg)) =
            (net_log bg ++ sent)%list /\
          forall rq, In rq sent -> req_method rq = POST ->
            exists body,
              req_body rq = Some body /\
              (body !! "mode" = Some (JStr "VIDEO") \/
               body !! "mode" = Some (JStr "PLAYLIST"))
    | (None, _) => True
    end.
Proof.
  assert (PopupSession.mode_shown
            (PopupSession.run es (PopupSession.open_view storage u0))) as Hinv.
  { apply mode_shown_run. now left. }
  split; [exact Hinv|]. intros b tab.
  set (u := PopupSession.run es (PopupSession.open_view storage u0)) in *.
  destruct (Popup.click b tab u) as [[msg|] u'] eqn:Hclick; [|exact I].
  pose proof (click_modo b tab u u' msg Hclick) as Hmodo.
  assert (JS.field msg "modo" = JStr "video" \/ JS.field msg "modo" = JStr "playlist")
    as Hmode.
  { rewrite Hmodo. destruct b; [|now left|now right].
    destruct Hinv as [[-> _] | [-> _]]; [now left | now right]. }
  split; [exact Hmode|]. intros w bg.
  destruct (onMessage_log w msg Popup.sender bg) as (sent & Hlog & Hsent).
  exists sent. split; [exact Hlog|]. intros rq Hin Hpost.
  destruct (Hsent rq Hin Hpost) as (_ & _ & base & apiPrefix & token & s & Hs & ->).
  eexists. split; [reflexivity|]. rewrite queue_body_mode.
  destruct Hmode as [Hm | Hm]; rewrite Hm in Hs; injection Hs as <-; [now left | now right].
Qed.

(** ** The status line *)

Section StatusLineFacts.
Import StatusLine.

Lemma applyStatus_vars text col s :
  tempStatusTimer (applyStatus text col s) = tempStatusTimer s /\
  pending (applyStatus text col s) = pending s /\
  next_timer (applyStatus text col s) = next_timer s /\
  baseStatusText (applyStatus text col s) = baseStatusText s /\
  baseStatusColor (applyStatus text col s) = baseStatusColor s /\
  label (applyStatus text col s) = (fun _ => (text, col)) <$> label s.
Proof.
  unfold applyStatus. destruct (label s) as [l|] eqn:Hl; cbn; rewrite ?Hl; repeat split.
Qed.

(** Before it sets its timeout, [showTempStatus] has none pending. *)
Lemma showTempStatus_clears (s : state) :
  tidy s ->
  pending (match tempStatusTimer s with
           | Some id =>
               mkState (label (clearTimeout id s)) (baseStatusText (clearTimeout id s))
                       (baseStatusColor (clearTimeout id s)) None
                       (pending (clearTimeout id s)) (next_timer (clearTimeout id s))
           | None => s
           end) = ∅.
Proof.
  intros [Hone _]. apply set_eq. intros id. split; [|intros Hin; now apply elem_of_empty in Hin].
  destruct (tempStatusTimer s) as [id0|] eqn:Htimer; cbn; intros Hin.
  - apply elem_of_difference in Hin as [Hin Hne]. apply Hone in Hin.
    injection Hin as ->. exfalso. apply Hne. now apply elem_of_singleton.
  - apply Hone in Hin. discriminate.
Qed.

Lemma showTempStatus_vars msg ok s :
  tidy s ->
  tempStatusTimer (showTempStatus msg ok s) = Some (next_timer s) /\
  pending (showTempStatus msg ok s) = {[next_timer s]} /\
  next_timer (showTempStatus msg ok s) = Pos.succ (next_timer s) /\
  baseStatusText (showTempStatus msg ok s) = baseStatusText s /\
  baseStatusColor (showTempStatus msg ok s) = baseStatusColor s /\
  label (showTempStatus msg ok s) = (fun _ => (msg, color ok)) <$> label s.
Proof.
  intros Htidy. pose proof (showTempStatus_clears s Htidy) as Hclear.
  unfold showTempStatus.
  set (s1 := match tempStatusTimer s with Some _ => _ | None => s end) in *.
  assert (next_timer s1 = next_timer s /\ baseStatusText s1 = baseStatusText s /\
          baseStatusColor s1 = baseStatusColor s /\ label s1 = label s)
    as (Hn1 & Hbt & Hbc & Hl).
  { subst s1. now destruct (tempStatusTimer s). }
  destruct (applyStatus_vars msg (color ok) s1) as (_ & Hp & Hn & Ht' & Hc' & Hl').
  cbn. rewrite Hp, Hn, Ht', Hc', Hl', Hclear, Hn1, Hbt, Hbc, Hl.
  repeat split. apply set_eq. intros id. rewrite elem_of_union, elem_of_singleton.
  split; [intros [H|H]; [exact H | now apply elem_of_empty in H] | now left].
Qed.

Lemma tidy_step (s : state) (e : event) : tidy s -> tidy (step s e).
Proof.
  intros Htidy. destruct e as [text ok|msg ok|id]; cbn [step].
  - destruct Htidy as [Hone Hfresh]. unfold setBaseStatus.
    destruct (applyStatus_vars text (color ok)
                (mkState (label s) text (color ok) (tempStatusTimer s) (pending s)
                         (next_timer s))) as (Ht & Hp & Hn & _).
    split; intros id; rewrite Hp; [rewrite Ht | rewrite Hn]; cbn; auto.
  - destruct (showTempStatus_vars msg ok s Htidy) as (Ht & Hp & Hn & _).
    split; intros id; rewrite Hp; [rewrite Ht | rewrite Hn]; intros Hin;
      apply elem_of_singleton in Hin as ->; [reflexivity | lia].
  - destruct Htidy as [Hone Hfresh]. unfold timer_fires.
    destruct (decide (id ∈ pending s)) as [Hin|Hout]; [|now split].
    destruct (applyStatus_vars (baseStatusText s) (baseStatusColor s) (clearTimeout id s))
      as (Ht & Hp & Hn & _).
    split; intros id'; rewrite Hp; [rewrite Ht | rewrite Hn]; cbn; intros Hin';
      apply elem_of_difference in Hin' as [Hin' _]; auto.
Qed.

Lemma tidy_run (es : list event) (s : state) : tidy s -> tidy (run es s).
Proof.
  revert s. induction es as [|e es IH]; intros s Hs; [exact Hs|].
  cbn. apply IH. now apply tidy_step.
Qed.

(** The label is there or not; its text changes, the label does not
    come or go. *)
Lemma label_present_step (s : state) (e : event) (x : string * string) :
  tidy s -> (fun _ => x) <$> label (step s e) = (fun _ => x) <$> label s.
Proof.
  intros Htidy. destruct e as [text ok|msg ok|id]; cbn [step].
  - unfold setBaseStatus.
    destruct (applyStatus_vars text (color ok)
                (mkState (label s) text (color ok) (tempStatusTimer s) (pending s)
                         (next_timer s))) as (_ & _ & _ & _ & _ & ->).
    cbn. now destruct (label s).
  - destruct (showTempStatus_vars msg ok s Htidy) as (_ & _ & _ & _ & _ & ->).
    now destruct (label s).
  - unfold timer_fires. destruct (decide (id ∈ pending s)); [|reflexivity].
    destruct (applyStatus_vars (baseStatusText s) (baseStatusColor s) (clearTimeout id s))
      as (_ & _ & _ & _ & _ & ->).
    cbn. now destruct (label s).
Qed.

Lemma label_present_run (es : list event) (s : state) (x : string * string) :
  tidy s -> (fun _ => x) <$> label (run es s) = (fun _ => x) <$> label s.
Proof.
  revert s. induction es as [|e es IH]; intros s Hs; [reflexivity|].
  cbn. fold (run es (step s e)). rewrite IH by now apply tidy_step.
  now apply label_present_step.
Qed.

Lemma tidy_initial (label0 : option (string * string)) : tidy (initial label0).
Proof.
  split; intros id Hin; now apply elem_of_empty in Hin.
Qed.

End StatusLineFacts.

(** Whatever the popup has shown since it opened, at most one timeout
    is pending, and it is the one [tempStatusTimer] names; when that
    timeout comes due, the label (if the page has one) goes back to the
    base status as it is then, and nothing is left pending. *)
Theorem status_line_returns_to_base (label0 : option (string * string))
    (es : list StatusLine.event) (id : positive) :
  id ∈ StatusLine.pending (StatusLine.run es (StatusLine.initial label0)) ->
  StatusLine.pending (StatusLine.run es (StatusLine.initial label0)) = {[id]} /\
  StatusLine.tempStatusTimer (StatusLine.run es (StatusLine.initial label0)) = Some id /\
  StatusLine.pending
    (StatusLine.timer_fires id (StatusLine.run es (StatusLine.initial label0))) = ∅ /\
  StatusLine.label
    (StatusLine.timer_fires id (StatusLine.run es (StatusLine.initial label0))) =
    (fun _ => (StatusLine.baseStatusText (StatusLine.run es (StatusLine.initial label0)),
               StatusLine.baseStatusColor (StatusLine.run es (StatusLine.initial label0))))
      <$> label0.
Proof.
  intros Hin.
  pose proof (tidy_run es _ (tidy_initial label0)) as [Hone _].
  set (s := StatusLine.run es (StatusLine.initial label0)) in *.
  assert (StatusLine.pending s = {[id]}) as Hp.
  { apply set_eq. intros id'. rewrite elem_of_singleton. split.
    - intros Hin'. apply Hone in Hin, Hin'. congruence.
    - now intros ->. }
  split; [exact Hp|]. split; [now apply Hone|].
  unfold StatusLine.timer_fires. destruct (decide (id ∈ StatusLine.pending s)); [|contradiction].
  destruct (applyStatus_vars (StatusLine.baseStatusText s) (StatusLine.baseStatusColor s)
              (StatusLine.clearTimeout id s)) as (_ & Hp' & _ & _ & _ & Hl).
  rewrite Hp', Hl. cbn. rewrite Hp. split.
  - apply set_eq. intros id'. rewrite elem_of_difference, elem_of_singleton.
    split; [now intros [-> Hne] | intros H; now apply elem_of_empty in H].
  - now apply (label_present_run es (StatusLine.initial label0)), tidy_initial.
Qed.

(** The popup opens connected, the user copies the URL and at once sends
    a link: the second message replaces the first, one timeout is left,
    and when it comes due the label says "connected" again. *)
Lemma status_line_scenario :
  StatusLine.pending
    (StatusLine.run [StatusLine.SetBase "🟢 Conectado a MVideoDk." true;
                     StatusLine.ShowTemp "✅ URL del servidor copiada." true;
                     StatusLine.ShowTemp "Solicitud enviada. Revisa la app MVideoDk." true]
       (StatusLine.initial (Some ("", "")))) = {[2%positive]} /\
  StatusLine.label
    (StatusLine.timer_fires 2
       (StatusLine.run [StatusLine.SetBase "🟢 Conectado a MVideoDk." true;
                        StatusLine.ShowTemp "✅ URL del servidor copiada." true;
                        StatusLine.ShowTemp "Solicitud enviada. Revisa la app MVideoDk." true]
          (StatusLine.initial (Some ("", ""))))) =
    Some ("🟢 Conectado a MVideoDk.", "green").
Proof.
  destruct (status_line_returns_to_base (Some ("", ""))
              [StatusLine.SetBase "🟢 Conectado a MVideoDk." true;
               StatusLine.ShowTemp "✅ URL del servidor copiada." true;
               StatusLine.ShowTemp "Solicitud enviada. Revisa la app MVideoDk." true]
              2%positive ltac:(vm_compute; reflexivity))
    as (Hpending & _ & _ & Hlabel).
  split; [exact Hpending | exact Hlabel].
Defined.

(** ** The floating control over the life of a page *)

(** The control is in the page exactly when the document has a body and
    the flag is on, and then it is displayed. *)
Lemma control_step (doc : Content.document) (p : Content.page) (e : ContentSession.event) :
  ContentSession.control_follows_flag doc p ->
  ContentSession.control_follows_flag doc (ContentSession.step doc p e).
Proof.
  unfold ContentSession.control_follows_flag.
  destruct p as [[[text disp]|] [|] url], doc as [[|] href];
    destruct e as [href'|msg|lastError res|]; cbn [ContentSession.step];
    unfold Content.updateUrl, Content.onMessage, Content.set_enabled,
      Content.createButton, Content.removeButton, Content.updateVisibility,
      ContentSession.on_click_response, ContentSession.feedback_timer,
      ContentSession.set_textContent;
    cbn; intros Hinv;
    repeat match goal with
           | |- context [if ?c then _ else _] => destruct c; cbn
           end;
    try exact Hinv; try reflexivity;
    try (split; [apply Hinv | first [apply Hinv | reflexivity]]);
    try (cbn in *; intuition congruence).
Qed.

Lemma control_run (doc : Content.document) (es : list ContentSession.event)
    (p : Content.page) :
  ContentSession.control_follows_flag doc p ->
  ContentSession.control_follows_flag doc (ContentSession.run doc es p).
Proof.
  revert p. induction es as [|e es IH]; intros p Hp; [exact Hp|].
  cbn. apply IH. now apply control_step.
Qed.

Lemma control_startup (storage : gmap string jsval) (doc : Content.document) :
  ContentSession.control_follows_flag doc (Content.startup storage doc).
Proof.
  unfold ContentSession.control_follows_flag. rewrite startup_cases.
  destruct (Content.has_body doc); cbn; [|reflexivity].
  now destruct (JS.is_true (JS.field storage STORAGE_FLOAT)).
Qed.

(** From its start and through every navigation, broadcast, response
    and feedback timeout, the control is shown exactly when the document
    has a body and the flag is on; a control in the page is never
    hidden, and there is never one while the flag is off. *)
Theorem control_shown_iff_enabled (storage : gmap string jsval) (doc : Content.document)
    (es : list ContentSession.event) :
  Content.overlay_present (ContentSession.run doc es (Content.startup storage doc)) =
    Content.has_body doc
    && Content.floatEnabled (ContentSession.run doc es (Content.startup storage doc)) /\
  (Content.btn (ContentSession.run doc es (Content.startup storage doc)) = None <->
   Content.overlay_present (ContentSession.run doc es (Content.startup storage doc)) = false).
Proof.
  pose proof (control_run doc es _ (control_startup storage doc)) as Hinv.
  unfold ContentSession.control_follows_flag, Content.overlay_present in *.
  destruct (Content.btn (ContentSession.run doc es (Content.startup storage doc)))
    as [b|].
  - destruct Hinv as [-> ->]. split; [reflexivity|]. split; discriminate.
  - rewrite Hinv. now split.
Qed.

(** The flag after a broadcast is the one broadcast. *)
Lemma onMessage_flag (msg : gmap string jsval) (doc : Content.document) (p : Content.page) :
  JS.is_string "SET_FLOAT_BUTTON" (JS.field msg "type") = true ->
  Content.floatEnabled (Content.onMessage msg doc p) = JS.truthy (JS.field msg "enabled").
Proof.
  intros Htype. unfold Content.onMessage, Content.set_enabled, Content.createButton,
    Content.removeButton, Content.updateVisibility. rewrite Htype.
  destruct (JS.truthy (JS.field msg "enabled")); cbn; [|reflexivity].
  now destruct (negb (Content.has_body doc) || bool_decide (is_Some (Content.btn p))).
Qed.

(** The broadcast of the popup's toggle leaves a running page, whatever
    it has been through, showing the control exactly as a page started
    afresh from the storage the toggle wrote. *)
Theorem broadcast_agrees_with_reload (storage0 storage : gmap string jsval)
    (doc : Content.document) (es : list ContentSession.event) (u : Popup.ui) :
  Content.overlay_present
    (Content.onMessage (snd (Popup.toggleFloat_click u storage)) doc
       (ContentSession.run doc es (Content.startup storage0 doc))) =
  Content.overlay_present
    (Content.startup (snd (fst (Popup.toggleFloat_click u storage))) doc).
Proof.
  pose proof (control_run doc (es ++ [ContentSession.Receives
                                        (snd (Popup.toggleFloat_click u storage))])
                _ (control_startup storage0 doc)) as Hinv.
  unfold ContentSession.run in Hinv. rewrite fold_left_app in Hinv.
  cbn [fold_left ContentSession.step] in Hinv.
  fold (ContentSession.run doc es (Content.startup storage0 doc)) in Hinv.
  set (p := ContentSession.run doc es (Content.startup storage0 doc)) in *.
  assert (Content.floatEnabled
            (Content.onMessage (snd (Popup.toggleFloat_click u storage)) doc p) =
          negb (Popup.floatEnabled u)) as Hflag.
  { rewrite onMessage_flag by reflexivity. reflexivity. }
  rewrite startup_cases.
  pose proof (getFloatEnabled_set (JBool (negb (Popup.floatEnabled u))) storage) as Hread.
  unfold Popup.getFloatEnabled in Hread. cbn [Popup.toggleFloat_click fst snd].
  rewrite Hread. cbn [JS.truthy].
  unfold ContentSession.control_follows_flag in Hinv. rewrite Hflag in Hinv.
  cbn [Popup.toggleFloat_click snd] in Hinv. unfold Content.overlay_present.
  destruct (Content.btn (Content.onMessage _ doc p)) as [b|].
  - destruct Hinv as [-> ->]. reflexivity.
  - rewrite Hinv. now destruct (Content.has_body doc && negb (Popup.floatEnabled u)).
Qed.

(** ** The feedback of the floating control *)

(** With server data that can be read, [sendDownload] settles for every
    mode that is a string. *)
Lemma sendDownload_settles (w : world) (st st1 : Background.state) (url modo : jsval)
    (info : string * jsval * jsval) (s : string) :
  Background.getServerInfo w st = (Ok info, st1) ->
  as_string (JS.or (match modo with JUndefined => JStr "video" | _ => modo end)
                   (JStr "video")) = Ok s ->
  exists st', Background.sendDownload w url modo st = (Ok tt, st').
Proof.
  destruct info as [[base apiPrefix] token]. intros Hinfo Hmode.
  destruct (negb (JS.truthy (JStr base)) || negb (JS.truthy token)) eqn:Hempty.
  - eexists. apply (BackgroundFacts.sendDownload_misconfigured w st url modo base apiPrefix
                      token st1 Hinfo).
    apply orb_true_iff in Hempty as [Hb | Ht].
    + left. destruct base; [reflexivity | discriminate].
    + right. now apply negb_true_iff.
  - apply orb_false_iff in Hempty as [Hb Ht]. apply negb_false_iff in Hb, Ht.
    assert (base <> "") as Hbase by (intros ->; discriminate).
    eexists. exact (BackgroundFacts.sendDownload_posts w st url modo base apiPrefix token
                      st1 s Hinfo Hbase Ht Hmode).
Qed.

(** A click on the floating control of a page with a URL ends with the
    check mark whenever the background could read its server data:
    the mark says the message was handled, whether the server queued
    the download, rejected it or could not be reached. *)
Theorem float_click_shows_check_mark (w : world) (p : Content.page) (b : Content.button)
    (sender : Background.sender_info) (st st1 : Background.state)
    (info : string * jsval * jsval) :
  Content.btn p = Some b ->
  Content.currentUrl p <> "" ->
  Background.getServerInfo w st = (Ok info, st1) ->
  exists r,
    Background.reply (fst (Background.onMessage w (Content.btn_click p) sender st)) =
      Some r /\
    ContentSession.on_click_response false (JObj r) p =
      Ok (Content.mkPage (Some (Content.mkButton "✓" (Content.display b)))
                         (Content.floatEnabled p) (Content.currentUrl p)).
Proof.
  intros Hbtn Hurl Hinfo.
  assert (Background.finalUrl (Content.btn_click p) sender = JStr (Content.currentUrl p))
    as Hfinal.
  { unfold Background.finalUrl.
    replace (JS.field (Content.btn_click p) "url") with (JStr (Content.currentUrl p))
      by reflexivity.
    assert (JS.truthy (JStr (Content.currentUrl p)) = true) as Ht.
    { destruct (Content.currentUrl p); [contradiction | reflexivity]. }
    rewrite (or_truthy_l _ _ Ht). exact (or_truthy_l _ _ Ht). }
  rewrite onMessage_passes; [|reflexivity| |reflexivity].
  - rewrite Hfinal. unfold Background.download_and_respond.
    destruct (sendDownload_settles w st st1 (JStr (Content.currentUrl p))
                (JS.or (JS.field (Content.btn_click p) "modo") (JStr "video"))
                info "video" Hinfo eq_refl) as [st' ->].
    exists Background.reply_ok. split; [reflexivity|].
    unfold ContentSession.on_click_response, ContentSession.set_textContent.
    now rewrite Hbtn.
  - rewrite Hfinal. destruct (Content.currentUrl p); [contradiction | reflexivity].
Qed.

(** The server rejects the token, and the control shows the check
    mark. *)
Lemma check_mark_for_rejected_token :
  exists r,
    Background.reply
      (fst (Background.onMessage Scenario.w_bad_token
              (Content.btn_click (Content.startup (Popup.setFloatEnabled (JBool true) ∅)
                                    Scenario.web_page))
              (Background.mkSender (Scenario.tab "https://video.test/watch?v=1"))
              (Scenario.fresh []))) = Some r /\
    ContentSession.on_click_response false (JObj r)
      (Content.startup (Popup.setFloatEnabled (JBool true) ∅) Scenario.web_page) =
      Ok (Content.mkPage (Some (Content.mkButton "✓" "block")) true
            "https://video.test/watch?v=1").
Proof.
  exact (float_click_shows_check_mark Scenario.w_bad_token
           (Content.startup (Popup.setFloatEnabled (JBool true) ∅) Scenario.web_page)
           (Content.mkButton "⬇" "block")
           (Background.mkSender (Scenario.tab "https://video.test/watch?v=1"))
           (Scenario.fresh [])
           (mkContext (Some (Scenario.config "/api" "local"))
                      [override_request "http://127.0.0.1:8000"] [])
           ("http://127.0.0.1:8000", JStr "/api", JStr "local")
           eq_refl ltac:(discriminate) eq_refl).
Defined.

(** When the control is switched off between a click and its response,
    the response callback throws (it writes to the button that is gone),
    and so does the feedback timeout of an earlier response. *)
Theorem feedback_after_removal_throws (msg : gmap string jsval) (doc : Content.document)
    (p : Content.page) (lastError : bool) (res : jsval) :
  JS.is_string "SET_FLOAT_BUTTON" (JS.field msg "type") = true ->
  JS.truthy (JS.field msg "enabled") = false ->
  ContentSession.on_click_response lastError res (Content.onMessage msg doc p) =
    Throw TypeError /\
  ContentSession.feedback_timer (Content.onMessage msg doc p) = Throw TypeError.
Proof.
  intros Htype Hoff. unfold Content.onMessage, Content.set_enabled. rewrite Htype, Hoff.
  unfold ContentSession.on_click_response, ContentSession.feedback_timer,
    ContentSession.set_textContent. cbn. now destruct lastError.
Qed.

Lemma feedback_after_switch_off :
  ContentSession.on_click_response false (JObj Background.reply_ok)
    (Content.onMessage
       (<["type" := JStr "SET_FLOAT_BUTTON"]> (<["enabled" := JBool false]> ∅))
       Scenario.web_page
       (Content.startup (Popup.setFloatEnabled (JBool true) ∅) Scenario.web_page)) =
    Throw TypeError /\
  ContentSession.feedback_timer
    (Content.onMessage
       (<["type" := JStr "SET_FLOAT_BUTTON"]> (<["enabled" := JBool false]> ∅))
       Scenario.web_page
       (Content.startup (Popup.setFloatEnabled (JBool true) ∅) Scenario.web_page)) =
    Throw TypeError.
Proof.
  exact (feedback_after_removal_throws
           (<["type" := JStr "SET_FLOAT_BUTTON"]> (<["enabled" := JBool false]> ∅))
           Scenario.web_page
           (Content.startup (Popup.setFloatEnabled (JBool true) ∅) Scenario.web_page)
           false (JObj Background.reply_ok) eq_refl eq_refl).
Defined.

(** ** The popup page: opening, and the pages of the server *)


Section PopupPageFacts.
Import PopupPage.

Implicit Types (w : world) (st : context page).





End PopupPageFacts.


(** The two buttons that open a page of the server never fail and do one
    of two things: with a configuration whose server URL is a string or
    missing, they open exactly one tab, at the base URL (without its
    trailing slashes, without the API prefix) followed by the page's
    path, and leave the status line alone; otherwise they open nothing
    and report that config_ext.json could not be read. *)
Theorem server_page_buttons (w : world) (st : context PopupPage.page) :
  forall (path : string) (handler : world -> M (context PopupPage.page) unit),
    (path = "/ext/queue" /\ handler = PopupPage.viewQueueBtn_click \/
     path = "/ext/open_downloads" /\ handler = PopupPage.openDownloadsBtn_click) ->
    exists st',
      handler w st = (Ok tt, st') /\
      ((exists cfg st1 base,
          loadConfig w st = (Ok cfg, st1) /\
          base_of (JS.field cfg "server_url") = Ok base /\
          PopupPage.tabs_created (own st') =
            (PopupPage.tabs_created (own st) ++ [(base ++ path)%string])%list /\
          PopupPage.line (own st') = PopupPage.line (own st)) \/
       ((forall cfg st1, loadConfig w st = (Ok cfg, st1) ->
           base_of (JS.field cfg "server_url") = Throw TypeError) /\
        PopupPage.tabs_created (own st') = PopupPage.tabs_created (own st) /\
        PopupPage.line (own st') =
          StatusLine.showTempStatus "❌ No se pudo leer config_ext.json" false
            (PopupPage.line (own st)))).
Proof.
  intros path handler Hwhich.
  pose proof (loadConfig_own w st) as Hown.
  assert (forall v e, base_of v = Throw e -> e = TypeError) as Htype.
  { intros v e. unfold base_of, as_string.
    destruct (JS.or v (JStr "")); now intros [= <-]. }
  destruct Hwhich as [[-> ->] | [-> ->]];
    unfold PopupPage.viewQueueBtn_click, PopupPage.openDownloadsBtn_click;
    cbv [try_catch bind lift_result modify];
    destruct (loadConfig w st) as [[cfg|e] st1] eqn:Hload; cbn [snd] in Hown;
    try (destruct (base_of (JS.field cfg "server_url")) as [base|e] eqn:Hbase);
    (eexists; split; [reflexivity|]); cbn [own set_own]; rewrite Hown.
  all: try (left; exists cfg, st1, base; now repeat split).
  all: right; (split; [|now split]).
  all: try (intros cfg' st1' [= <- <-]; rewrite Hbase; f_equal; now apply (Htype _ _ Hbase)).
  all: intros cfg' st1' Habs; discriminate.
Qed.

(** A package that names the local server: the queue page opens at
    [http://127.0.0.1:8000/ext/queue]. *)
Lemma view_queue_scenario :
  exists st',
    PopupPage.viewQueueBtn_click Scenario.w_accepting
      (Scenario.fresh (PopupPage.mkPage (StatusLine.initial (Some ("", ""))) "" true true
                         "👁️" None [] None)) = (Ok tt, st') /\
    PopupPage.tabs_created (own st') = ["http://127.0.0.1:8000/ext/queue"].
Proof.
  destruct (server_page_buttons Scenario.w_accepting
              (Scenario.fresh (PopupPage.mkPage (StatusLine.initial (Some ("", ""))) "" true
                                 true "👁️" None [] None))
              "/ext/queue" PopupPage.viewQueueBtn_click (or_introl (conj eq_refl eq_refl)))
    as (st' & Hrun & _).
  exists st'. split; [exact Hrun|].
  vm_compute in Hrun. injection Hrun as <-. reflexivity.
Defined.

(** The server URL starts masked, and every click on the eye flips the
    mask: after [n] clicks it is masked exactly when [n] is even; the
    class of the field agrees with it, and so does, from the first click
    on, the icon of the button; the URL in the field is what it was. *)
Theorem server_url_mask_follows_clicks (n : nat) (icon : string) (p : PopupPage.page) :
  PopupPage.urlHidden
    (Nat.iter n PopupPage.toggleServerUrlBtn_click
       (PopupPage.set_hidden true true icon p)) = Nat.even n /\
  PopupPage.secret_hidden
    (Nat.iter n PopupPage.toggleServerUrlBtn_click
       (PopupPage.set_hidden true true icon p)) = Nat.even n /\
  PopupPage.toggleServerUrlBtn_textContent
    (Nat.iter n PopupPage.toggleServerUrlBtn_click
       (PopupPage.set_hidden true true icon p)) =
    match n with
    | O => icon
    | S _ => if Nat.even n then "👁️" else "🙈"
    end /\
  PopupPage.serverUrlInput_value
    (Nat.iter n PopupPage.toggleServerUrlBtn_click
       (PopupPage.set_hidden true true icon p)) = PopupPage.serverUrlInput_value p.
Proof.
  induction n as [|n (Hh & Hs & Ht & Hv)]; [now repeat split|].
  rewrite Nat.even_succ, <- Nat.negb_even.
  change (Nat.iter (S n) PopupPage.toggleServerUrlBtn_click
            (PopupPage.set_hidden true true icon p))
    with (PopupPage.toggleServerUrlBtn_click
            (Nat.iter n PopupPage.toggleServerUrlBtn_click
               (PopupPage.set_hidden true true icon p))).
  set (q := Nat.iter n PopupPage.toggleServerUrlBtn_click
              (PopupPage.set_hidden true true icon p)) in *.
  unfold PopupPage.toggleServerUrlBtn_click. rewrite Hh.
  destruct (Nat.even n); cbn; rewrite Hv; now repeat split.
Qed.

(** ** From the override to the queue *)

(** The first submission of a context whose override succeeds: the
    override is asked at the bundled address, and the POST of the same
    call already goes to the address the server published, with the
    token it published and the bundled prefix. *)
Theorem override_reaches_the_queue_request (w : world) (st : Background.state)
    (c srv : gmap string jsval) (base su tk : string) (r : response)
    (url : jsval) (m : mode) :
  CFG st = None ->
  bundled w = Some c ->
  base_of (JS.field c "server_url") = Ok base ->
  net w (net_log st) (override_request base) = Response r ->
  resp_ok r = true ->
  json_body r = Some (JObj srv) ->
  JS.field srv "server_url" = JStr su ->
  JS.field srv "token" = JStr tk ->
  JS.strip_trailing_slashes su <> "" ->
  tk <> "" ->
  exists st',
    Background.sendDownload w url (JStr (mode_name m)) st = (Ok tt, st') /\
    net_log st' =
      (net_log st ++
       [override_request base;
        mkRequest POST
          (JS.strip_trailing_slashes su
           ++ JS.ToString (JS.or (JS.field c "api_prefix") (JStr "/api")) ++ "/queue")%string
          [("Authorization", ("Bearer " ++ tk)%string); ("Content-Type", "application/json")]
          (Some (<["url" := url]>
                   (<["source" := JStr "EXT"]> (<["mode" := JStr (mode_upper m)]> ∅))))])%list.
Proof.
  intros Hc Hb Hbase Hnet Hok Hjson Hsu Htk Hsu' Htk'.
  pose proof (loadConfig_override w st c base r srv Hc Hb Hbase Hnet Hok Hjson) as Hload.
  set (c' := overwrite "token" srv (overwrite "server_url" srv c)) in *.
  assert (JS.truthy (JStr su) = true) as Hsut.
  { destruct su; [now contradiction Hsu' | reflexivity]. }
  assert (JS.truthy (JStr tk) = true) as Htkt.
  { destruct tk; [contradiction | reflexivity]. }
  assert (JS.field c' "server_url" = JStr su) as Hf1.
  { unfold JS.field, c'. rewrite overwrite_other by discriminate.
    rewrite overwrite_same. rewrite Hsu, Hsut.
    rewrite (truthy_field_lookup srv "server_url") by now rewrite Hsu.
    now rewrite Hsu. }
  assert (JS.field c' "token" = JStr tk) as Hf2.
  { unfold JS.field, c'. rewrite overwrite_same. rewrite Htk, Htkt.
    rewrite (truthy_field_lookup srv "token") by now rewrite Htk.
    now rewrite Htk. }
  assert (JS.field c' "api_prefix" = JS.field c "api_prefix") as Hf3.
  { unfold JS.field, c'. now rewrite !overwrite_other by discriminate. }
  assert (base_of (JS.field c' "server_url") = Ok (JS.strip_trailing_slashes su)) as Hbase'.
  { rewrite Hf1. unfold base_of, JS.or. now rewrite Hsut. }
  pose proof (BackgroundFacts.getServerInfo_run w st c' _ _ Hload Hbase') as Hinfo.
  rewrite Hf2, Hf3 in Hinfo. rewrite (or_truthy_l _ _ Htkt) in Hinfo.
  assert (as_string (JS.or (JStr (mode_name m)) (JStr "video")) = Ok (mode_name m)) as Hmode.
  { now destruct m. }
  pose proof (BackgroundFacts.sendDownload_posts w st url (JStr (mode_name m)) _ _ _ _
                (mode_name m) Hinfo Hsu' Htkt Hmode) as Hrun.
  cbv zeta in Hrun. eexists. split; [exact Hrun|].
  cbn [net_log]. rewrite <- app_assoc. cbn [app]. do 3 f_equal.
  unfold Background.queue_request, Background.queue_body. now destruct m.
Qed.

(** The scenario of the specification, one step further: the link goes
    to [https://x.test/api/queue] with the token "abc". *)
Lemma override_then_queue_scenario :
  exists st',
    Background.sendDownload Scenario.w_override (JStr "https://video.test/watch?v=1")
      (JStr "video") (Scenario.fresh []) = (Ok tt, st') /\
    net_log st' =
      [mkRequest GET "http://127.0.0.1:8000/api/ext/config" [] None;
       mkRequest POST "https://x.test/api/queue"
         [("Authorization", "Bearer abc"); ("Content-Type", "application/json")]
         (Some (<["url" := JStr "https://video.test/watch?v=1"]>
                  (<["source" := JStr "EXT"]> (<["mode" := JStr "VIDEO"]> ∅))))].
Proof.
  exact (override_reaches_the_queue_request Scenario.w_override (Scenario.fresh [])
           (Scenario.config "/api" "local") Scenario.override_body
           "http://127.0.0.1:8000" "https://x.test" "abc"
           (mkResponse 200 "OK" (Some (JObj Scenario.override_body)))
           (JStr "https://video.test/watch?v=1") Video
           eq_refl eq_refl eq_refl eq_refl eq_refl eq_refl eq_refl eq_refl
           ltac:(discriminate) ltac:(discriminate)).
Defined.
